(** * pyTanks.Server: session manager and tick scheduler

    A shallow embedding of [wsServer.py] (client registry, [send],
    [sendTask], [clientHandler], [frameLoop]) and of [tank.toDict] from
    [gameClasses.py], with the properties of the design document stated
    and settled against it.

    Modelling conventions.
    - The module-level dict [clients] is a [gmap Z client]; the mutable
      lists [outgoing] and [incoming] are fields of the stored record, so
      an update of a queue is an update of the registry entry.
    - A websocket object is represented by the transcript of the payloads
      sent over it and by its close code once closed; it is owned by exactly
      one connection.
    - Python exceptions are values of [exn]; a computation returns either a
      value or a raised exception, together with the state reached at that
      point (mutations made before a [raise] persist, as in Python).
    - The frame loop is given twice.  In the first model Python floats are
      exact rationals [Q]: it serves the properties that do not depend on
      which side of a threshold a rounded value falls.  The module
      [binary64] gives the same loop over IEEE 754 binary64 floats, the
      floats of CPython, operation by operation; the properties of the two
      threshold tests are stated on it.  Wall-clock instants are integers
      in microseconds.
    - A coroutine is cut at its [await] points: each segment between two
      awaits is one atomic transition, and a schedule is a list of such
      transitions. *)

From Stdlib Require Import ZArith QArith Qminmax List String Bool Lia.
From Stdlib Require Import Floats.
From Stdlib Require Uint63.
From stdpp Require Import gmap strings list fin_maps.

#[local] Set Warnings "-inexact-float".

Open Scope string_scope.
Open Scope list_scope.
Open Scope Z_scope.

(** ** config.py *)

Module config.

Record apiPathsT := { path_viewer : string; path_player : string }.
Record clientTypesT := { type_viewer : string; type_player : string }.

(** class serverSettings.  [tankNames] and [tankStatus_dead] are read by
    the server and by [tank.__init__] but are not defined in the revision of
    config.py at hand: they are parameters of the settings. *)
Record serverSettingsT := {
  ip : string;
  port : Z;
  framesPerSecond : Z;
  updatesPerSecond : Z;
  logLevel : Z;
  apiPaths : apiPathsT;
  clientTypes : clientTypesT;
  tankNames : list string;
  tankStatus_dead : string
}.

(** The values of config.py, for a given name table and status tag. *)
Definition serverSettings (names : list string) (dead : string) : serverSettingsT :=
  {| ip := "127.0.0.1";
     port := 5678;
     framesPerSecond := 60;
     updatesPerSecond := 15;
     logLevel := 1;
     apiPaths := {| path_viewer := "/pyTanksAPI/viewer";
                    path_player := "/pyTanksAPI/player" |};
     clientTypes := {| type_viewer := "viewer"; type_player := "player" |};
     tankNames := names;
     tankStatus_dead := dead |}.

End config.

(** ** Exceptions and the state-and-exception monad *)

Inductive exn :=
| KeyError
| ValueError
| ZeroDivisionError
| ConnectionClosed (code : Z)          (* websockets.exceptions.ConnectionClosed *)
| OtherError (name : string).          (* an exception of any other class *)

Inductive res (A : Type) :=
| Return (a : A)
| Raise (e : exn).
Arguments Return {A} a.
Arguments Raise {A} e.

Definition M (S A : Type) : Type := S -> res A * S.

Definition ret {S A} (a : A) : M S A := fun s => (Return a, s).
Definition raise {S A} (e : exn) : M S A := fun s => (Raise e, s).
Definition bind {S A B} (m : M S A) (k : A -> M S B) : M S B :=
  fun s => match m s with
           | (Return a, s') => k a s'
           | (Raise e, s') => (Raise e, s')
           end.
Definition get {S} : M S S := fun s => (Return s, s).
Definition modify {S} (f : S -> S) : M S unit := fun s => (Return tt, f s).
Definition lift {S A} (r : res A) : M S A := fun s => (r, s).

(** [try m except h]: run [m]; an exception for which [h] has a clause is
    handled from the state reached when it was raised; the others go on. *)
Definition try_except {S A} (m : M S A) (h : exn -> option (M S A)) : M S A :=
  fun s => match m s with
           | (Return a, s') => (Return a, s')
           | (Raise e, s') =>
               match h e with
               | Some k => k s'
               | None => (Raise e, s')
               end
           end.

Declare Scope monad_scope.
Delimit Scope monad_scope with monad.
Notation "x <- m ;; k" := (bind m (fun x => k))
  (at level 100, m at next level, right associativity) : monad_scope.
Notation "m ;;; k" := (bind m (fun _ => k))
  (at level 100, right associativity) : monad_scope.
Open Scope monad_scope.

(** [for x in xs: body x], stopping at the first exception *)
Fixpoint for_each {S A} (xs : list A) (body : A -> M S unit) : M S unit :=
  match xs with
  | [] => ret tt
  | x :: xs' => body x ;;; for_each xs' body
  end.

(** The state a computation ends in, whatever its outcome. *)
Definition exec {S A} (m : M S A) (s : S) : S := snd (m s).

(** ** The client registry *)

(** A websocket, seen from the server: the payloads sent over it so far,
    and the close code once the connection is closed. *)
Record websocket := {
  ws_closed : option Z;
  ws_sent : list string
}.

(** websocket.send(message): ConnectionClosed on a closed connection *)
Definition websocket_send (ws : websocket) (message : string) : res websocket :=
  match ws_closed ws with
  | Some code => Raise (ConnectionClosed code)
  | None => Return {| ws_closed := None; ws_sent := ws_sent ws ++ [message] |}
  end.

(** class client *)
Record client := {
  socket : websocket;
  type : string;
  outgoing : list string;
  incoming : list string
}.

(** client(clientSocket, type) *)
Definition client_init (clientSocket : websocket) (ty : string) : client :=
  {| socket := clientSocket; type := ty; outgoing := []; incoming := [] |}.

(** Lines written by [print], kept as structured records. *)
Inductive logline :=
| LogQueued (recipient : Z + string) (message : string)
| LogInvalidPath
| LogConnected (clientID : Z) (ty path : string)
| LogGotMessage (clientID : Z) (message : string)
| LogSendTaskExited (clientID : Z)
| LogHandlerExited (clientID : Z).

(** The process-wide state the connection code works on: the registry
    [clients], the lines printed, and the sendTask coroutines created. *)
Record world := {
  clients : gmap Z client;
  stdout : list logline;
  tasks : list Z
}.

Definition set_clients (f : gmap Z client -> gmap Z client) (w : world) : world :=
  {| clients := f (clients w); stdout := stdout w; tasks := tasks w |}.

Definition print (l : logline) : M world unit :=
  modify (fun w => {| clients := clients w; stdout := stdout w ++ [l];
                      tasks := tasks w |}).

(** asyncio.get_event_loop().create_task(sendTask(clientID)) *)
Definition create_sendTask (clientID : Z) : M world unit :=
  modify (fun w => {| clients := clients w; stdout := stdout w;
                      tasks := tasks w ++ [clientID] |}).

(** clientID in clients *)
Definition clients_contains (clientID : Z) : M world bool :=
  w <- get ;;
  ret (match clients w !! clientID with Some _ => true | None => false end).

(** clients[clientID]: the entry, or KeyError *)
Definition clients_getitem (clientID : Z) : M world client :=
  w <- get ;;
  match clients w !! clientID with
  | Some c => ret c
  | None => raise KeyError
  end.

(** clients[clientID] = c *)
Definition clients_setitem (clientID : Z) (c : client) : M world unit :=
  modify (set_clients <[clientID := c]>).

(** The client [c] once [message] is appended to its outgoing queue. *)
Definition appended (message : string) (c : client) : client :=
  {| socket := socket c; type := type c;
     outgoing := outgoing c ++ [message]; incoming := incoming c |}.

(** clients[clientID].outgoing.append(message) *)
Definition outgoing_append (clientID : Z) (message : string) : M world unit :=
  c <- clients_getitem clientID ;;
  clients_setitem clientID (appended message c).

(** clients[clientID].incoming.append(message) *)
Definition incoming_append (clientID : Z) (message : string) : M world unit :=
  c <- clients_getitem clientID ;;
  clients_setitem clientID
    {| socket := socket c; type := type c;
       outgoing := outgoing c; incoming := incoming c ++ [message] |}.

(** clients.pop(clientID), without a default: KeyError when absent *)
Definition clients_pop (clientID : Z) : M world client :=
  c <- clients_getitem clientID ;;
  modify (set_clients (delete clientID)) ;;;
  ret c.

(** random.randint(a, b) on the raw entropy [r]: a value of [a, b], or
    ValueError on an empty range *)
Definition randint {S} (a b : Z) (r : Z) : M S Z :=
  if b <? a then raise ValueError else ret (a + r mod (b - a + 1)).

(** ** wsServer.py: send, sendTask, clientHandler *)

(** Where a coroutine stands after one of its segments. *)
Inductive sendTask_status :=
| SentOne          (* suspended at await socket.send(...) *)
| Idle             (* suspended at await asyncio.sleep(0.05) *)
| SendTaskExited.  (* fell out of the while loop and returned *)

Inductive handler_status :=
| Refused (ws : websocket)   (* returned after the rejection: the socket dies *)
| Generating                 (* still inside the while True of the ID draw *)
| Receiving (clientID : Z)   (* suspended at await websocket.recv() *)
| Finished (clientID : Z).   (* left the receive loop and returned *)

Section Server.

Variable cfg : config.serverSettingsT.

(** logPrint(message, minLevel) *)
Definition logPrint (message : logline) (minLevel : Z) : M world unit :=
  if config.logLevel cfg >=? minLevel then print message else ret tt.

(** send(recipient, message); recipient is an int clientID ([inl]) or a
    client type ([inr]) *)
Definition send (recipient : Z + string) (message : string) : M world unit :=
  match recipient with
  | inl clientID => outgoing_append clientID message
  | inr ty =>
      w <- get ;;
      for_each (map_to_list (clients w)).*1 (fun clientID =>
        c <- clients_getitem clientID ;;
        if String.eqb (type c) ty
        then outgoing_append clientID message
        else ret tt)
  end ;;;
  if config.logLevel cfg >=? 2
  then print (LogQueued recipient message)
  else ret tt.

(** One turn of the while loop of sendTask(clientID), up to its await. *)
Definition sendTask_step (clientID : Z) : M world sendTask_status :=
  present <- clients_contains clientID ;;
  if present then
    c <- clients_getitem clientID ;;
    match outgoing c with
    | message :: rest =>
        (* outgoing.pop(0), then socket.send of the popped payload *)
        clients_setitem clientID
          {| socket := socket c; type := type c;
             outgoing := rest; incoming := incoming c |} ;;;
        ws <- lift (websocket_send (socket c) message) ;;
        c' <- clients_getitem clientID ;;
        clients_setitem clientID
          {| socket := ws; type := type c';
             outgoing := outgoing c'; incoming := incoming c' |} ;;;
        ret SentOne
    | [] => ret Idle
    end
  else
    logPrint (LogSendTaskExited clientID) 1 ;;;
    ret SendTaskExited.

(** The while True loop drawing a clientID, on the entropy [draws];
    [None] when every draw given was already taken. *)
Fixpoint generate_clientID (clientType : string) (draws : list Z)
  : M world (option Z) :=
  match draws with
  | [] => ret None
  | r :: draws' =>
      clientID <-
        (if String.eqb clientType (config.type_player (config.clientTypes cfg))
         then randint 0 (Z.of_nat (length (config.tankNames cfg)) - 1) r
         else randint 1000 9999 r) ;;
      present <- clients_contains clientID ;;
      if present then generate_clientID clientType draws'
      else ret (Some clientID)
  end.

Definition rejection : string :=
  "Invalid API path - Check that your client config is up to date".

(** clientHandler once the path is accepted: "Generate a clientID", "Add
    the client to the dictionary of active clients", "Start the sendTask
    for this socket", and the entry of the receive loop. *)
Definition clientHandler_register (ws : websocket) (path clientType : string)
    (draws : list Z) : M world handler_status :=
  drawn <- generate_clientID clientType draws ;;
  match drawn with
  | None => ret Generating
  | Some clientID =>
      clients_setitem clientID (client_init ws clientType) ;;;
      c <- clients_getitem clientID ;;
      logPrint (LogConnected clientID (type c) path) 1 ;;;
      create_sendTask clientID ;;;
      present <- clients_contains clientID ;;
      if present then ret (Receiving clientID)
      else logPrint (LogHandlerExited clientID) 1 ;;; ret (Finished clientID)
  end.

(** clientHandler(websocket, path), from the call to its first await on
    websocket.recv() (or to its return). *)
Definition clientHandler_connect (ws : websocket) (path : string)
    (draws : list Z) : M world handler_status :=
  if String.eqb path (config.path_viewer (config.apiPaths cfg)) then
    clientHandler_register ws path
      (config.type_viewer (config.clientTypes cfg)) draws
  else if String.eqb path (config.path_player (config.apiPaths cfg)) then
    clientHandler_register ws path
      (config.type_player (config.clientTypes cfg)) draws
  else
    logPrint LogInvalidPath 1 ;;;
    ws' <- lift (websocket_send ws rejection) ;;
    ret (Refused ws').

(** clientHandler resumed at await websocket.recv(), which either returns
    a message or raises; up to the next await (or to the return). *)
Definition clientHandler_recv (clientID : Z) (received : res string)
  : M world handler_status :=
  continue <-
    try_except
      (message <- lift received ;;
       incoming_append clientID message ;;;
       logPrint (LogGotMessage clientID message) 2 ;;;
       clients_contains clientID)
      (fun e => match e with
                | ConnectionClosed _ =>
                    Some (clients_pop clientID ;;; ret false)
                | _ => None
                end) ;;
  if continue then ret (Receiving clientID)
  else logPrint (LogHandlerExited clientID) 1 ;;; ret (Finished clientID).

(** *** Schedules

    The cooperative scheduler interleaves the segments of the coroutines
    with the calls of [send] made by the game logic. *)
Inductive action :=
| ASend (recipient : Z + string) (message : string)
| ADrain (clientID : Z)
| ARecv (clientID : Z) (received : res string)
| AConnect (ws : websocket) (path : string) (draws : list Z).

Definition perform (a : action) (w : world) : world :=
  match a with
  | ASend recipient message => exec (send recipient message) w
  | ADrain clientID => exec (sendTask_step clientID) w
  | ARecv clientID received => exec (clientHandler_recv clientID received) w
  | AConnect ws path draws => exec (clientHandler_connect ws path draws) w
  end.

Fixpoint run (acts : list action) (w : world) : world :=
  match acts with
  | [] => w
  | a :: acts' => run acts' (perform a w)
  end.


End Server.

(** ** wsServer.py: frameLoop *)

(** Python's [<] and [>=] on numbers *)
Definition Qlt_bool (a b : Q) : bool := negb (Qle_bool b a).
Definition Qge_bool (a b : Q) : bool := Qle_bool b a.

(** Python's true division *)
Definition truediv {S} (a b : Q) : M S Q :=
  if Qeq_bool b 0 then raise ZeroDivisionError else ret (a / b)%Q.

(** sum(deltas) *)
Definition sum (l : list Q) : Q := fold_left Qplus l 0%Q.

(** The local variables of frameLoop. *)
Record loopVars := {
  lastFrameTime : Z;
  baseDelay : Q;
  delay : Q;
  deltas : list Q;
  timeSinceLastUpdate : Q;
  lastFSPLog : Z;
  frameCount : Z
}.

(** What an iteration does to the outside, in order. *)
Inductive effect :=
| CallFrame (frameDelta : Q)   (* frameCallback(frameDelta) *)
| CallUpdate                   (* updateCallback() *)
| PrintFPS (fps : Q)           (* print("FPS: " + str(frameCount / 5)) *)
| Sleep (seconds : Q).         (* await asyncio.sleep(delay) *)

(** The clock is read [reads] times so far; [trace] is what was done. *)
Record runtime := {
  reads : nat;
  trace : list effect
}.

Definition start : runtime := {| reads := 0; trace := [] |}.

(** The arguments of the sleeps of a trace, in order. *)
Fixpoint sleeps (t : list effect) : list Q :=
  match t with
  | [] => []
  | Sleep d :: t' => d :: sleeps t'
  | _ :: t' => sleeps t'
  end.

(** The number of calls of updateCallback in a trace. *)
Fixpoint updates (t : list effect) : nat :=
  match t with
  | [] => O
  | CallUpdate :: t' => S (updates t')
  | _ :: t' => updates t'
  end.

(** The arguments of the calls of frameCallback in a trace, in order. *)
Fixpoint frames (t : list effect) : list Q :=
  match t with
  | [] => []
  | CallFrame d :: t' => d :: frames t'
  | _ :: t' => frames t'
  end.

(** The rates printed in a trace, in order. *)
Fixpoint prints (t : list effect) : list Q :=
  match t with
  | [] => []
  | PrintFPS q :: t' => q :: prints t'
  | _ :: t' => prints t'
  end.

Section FrameLoop.

Variable cfg : config.serverSettingsT.

(** The successive values of datetime.datetime.now(), in microseconds. *)
Variable clock : nat -> Z.

Definition now : M runtime Z :=
  fun r => (Return (clock (reads r)),
            {| reads := S (reads r); trace := trace r |}).

Definition emit (e : effect) : M runtime unit :=
  modify (fun r => {| reads := reads r; trace := trace r ++ [e] |}).

(** timeDelta(aTime): the [seconds] and [microseconds] fields of the
    normalised timedelta [now() - aTime]; its [days] field is not read. *)
Definition timeDelta (aTime : Z) : M runtime Q :=
  t <- now ;;
  let diff := t - aTime in
  let seconds := (diff mod 86400000000) / 1000000 in
  let microseconds := diff mod 1000000 in
  ret (inject_Z seconds + inject_Z microseconds / 1000000)%Q.

Definition framesPerSecond : Q := inject_Z (config.framesPerSecond cfg).
Definition updatesPerSecond : Q := inject_Z (config.updatesPerSecond cfg).

(** The statements of frameLoop before its while True. *)
Definition frameLoop_init : M runtime loopVars :=
  lastFrameTime0 <- now ;;
  baseDelay0 <- truediv 1 framesPerSecond ;;
  timeSinceLastUpdate0 <- truediv 1 updatesPerSecond ;;
  lastFSPLog0 <- now ;;
  ret {| lastFrameTime := lastFrameTime0;
         baseDelay := baseDelay0;
         delay := baseDelay0;
         deltas := [];
         timeSinceLastUpdate := timeSinceLastUpdate0;
         lastFSPLog := lastFSPLog0;
         frameCount := 0 |}.

(** deltas.append(frameDelta), and deltas.pop(0) beyond 15 samples *)
Definition push_delta (deltas0 : list Q) (frameDelta : Q) : list Q :=
  let deltas1 := deltas0 ++ [frameDelta] in
  if 15 <? Z.of_nat (length deltas1) then tail deltas1 else deltas1.

(** "Adjust delay to try to keep the actual frame rate within 5% of the
    target", and the floor that follows it: the new value of [delay] *)
Definition adjust_delay (delay0 baseDelay0 : Q) (deltas0 : list Q) : M runtime Q :=
  avgDelta <- truediv (sum deltas0) (inject_Z (Z.of_nat (length deltas0))) ;;
  let delay1 :=
    if Qlt_bool (avgDelta * framesPerSecond) 0.95 then
      (delay0 + baseDelay0 * 0.01)%Q
    else if Qlt_bool 1.05 (avgDelta * framesPerSecond) then
      (delay0 - baseDelay0 * 0.01)%Q
    else delay0 in
  floor <- truediv 1 250 ;;
  if Qlt_bool delay1 floor then truediv 1 250 else ret delay1.

(** "Log FPS if server logging is enabled": the new values of
    [frameCount] and [lastFSPLog] *)
Definition log_fps (frameCount0 lastFSPLog0 : Z) : M runtime (Z * Z) :=
  if config.logLevel cfg >=? 1 then
    let frameCount1 := frameCount0 + 1 in
    elapsed <- timeDelta lastFSPLog0 ;;
    if Qge_bool elapsed 5 then
      fps <- truediv (inject_Z frameCount1) 5 ;;
      emit (PrintFPS fps) ;;;
      t <- now ;;
      ret (0, t)
    else ret (frameCount1, lastFSPLog0)
  else ret (frameCount0, lastFSPLog0).

(** "Run updateCallback at the rate set in config.py": the new value of
    [timeSinceLastUpdate] *)
Definition run_update (timeSinceLastUpdate0 frameDelta : Q) : M runtime Q :=
  let timeSinceLastUpdate1 := (timeSinceLastUpdate0 + frameDelta)%Q in
  threshold <- truediv 1 updatesPerSecond ;;
  if Qge_bool timeSinceLastUpdate1 threshold then
    emit CallUpdate ;;; ret 0%Q
  else ret timeSinceLastUpdate1.

(** The body of the while True, from [deltas.append(frameDelta)] on. *)
Definition frameLoop_tick (v : loopVars) (frameDelta : Q) : M runtime loopVars :=
  let deltas' := push_delta (deltas v) frameDelta in
  delay' <- adjust_delay (delay v) (baseDelay v) deltas' ;;
  logged <- log_fps (frameCount v) (lastFSPLog v) ;;
  emit (CallFrame frameDelta) ;;;
  timeSinceLastUpdate' <- run_update (timeSinceLastUpdate v) frameDelta ;;
  emit (Sleep delay') ;;;
  ret {| lastFrameTime := lastFrameTime v;
         baseDelay := baseDelay v;
         delay := delay';
         deltas := deltas';
         timeSinceLastUpdate := timeSinceLastUpdate';
         lastFSPLog := snd logged;
         frameCount := fst logged |}.

(** One turn of the while True, up to and including its await. *)
Definition frameLoop_body (v : loopVars) : M runtime loopVars :=
  frameDelta <- timeDelta (lastFrameTime v) ;;
  t <- now ;;
  frameLoop_tick
    {| lastFrameTime := t; baseDelay := baseDelay v; delay := delay v;
       deltas := deltas v; timeSinceLastUpdate := timeSinceLastUpdate v;
       lastFSPLog := lastFSPLog v; frameCount := frameCount v |}
    frameDelta.

Fixpoint iterate (n : nat) (v : loopVars) : M runtime loopVars :=
  match n with
  | O => ret v
  | S n' => v' <- iterate n' v ;; frameLoop_body v'
  end.

(** frameLoop(), observed after [n] turns of its loop. *)
Definition frameLoop (n : nat) : M runtime loopVars :=
  v <- frameLoop_init ;; iterate n v.

End FrameLoop.

(** ** wsServer.py: frameLoop over binary64 floats

    The same statements as above, with every float operation of the source
    done in binary64, round to nearest even, as CPython does them.  A decimal
    literal denotes the nearest binary64 value, as in Python.  Integers are
    converted as Python converts them in mixed arithmetic; the conversion is
    the one of the source for integers below 2^63 in absolute value, and is
    exact below 2^53. *)

Module binary64.

(** float(z), for an int [z] *)
Definition float_of_Z (z : Z) : float :=
  match z with
  | Z0 => 0%float
  | Zpos _ => PrimFloat.of_uint63 (Uint63.of_Z z)
  | Zneg p => (- PrimFloat.of_uint63 (Uint63.of_Z (Zpos p)))%float
  end.

(** [a / b] on two ints: ZeroDivisionError when [b] is 0 *)
Definition truediv_int {S} (a b : Z) : M S float :=
  if b =? 0 then raise ZeroDivisionError
  else ret (float_of_Z a / float_of_Z b)%float.

(** [a / b] on two floats: ZeroDivisionError when [b] is 0.0 or -0.0 *)
Definition truediv {S} (a b : float) : M S float :=
  if (b =? 0)%float then raise ZeroDivisionError else ret (a / b)%float.

(** sum(deltas): the additions are made from 0, left to right *)
Definition sum (l : list float) : float := fold_left PrimFloat.add l 0%float.

Record loopVars := {
  lastFrameTime : Z;
  baseDelay : float;
  delay : float;
  deltas : list float;
  timeSinceLastUpdate : float;
  lastFSPLog : Z;
  frameCount : Z
}.

Inductive effect :=
| CallFrame (frameDelta : float)   (* frameCallback(frameDelta) *)
| CallUpdate                       (* updateCallback() *)
| PrintFPS (fps : float)           (* print("FPS: " + str(frameCount / 5)) *)
| Sleep (seconds : float).         (* await asyncio.sleep(delay) *)

Record runtime := {
  reads : nat;
  trace : list effect
}.

Definition start : runtime := {| reads := 0; trace := [] |}.

(** The number of calls of updateCallback in a trace. *)
Fixpoint updates (t : list effect) : nat :=
  match t with
  | [] => O
  | CallUpdate :: t' => S (updates t')
  | _ :: t' => updates t'
  end.

(** The arguments of the sleeps of a trace, in order. *)
Fixpoint sleeps (t : list effect) : list float :=
  match t with
  | [] => []
  | Sleep d :: t' => d :: sleeps t'
  | _ :: t' => sleeps t'
  end.

Section FrameLoop.

Variable cfg : config.serverSettingsT.

(** The successive values of datetime.datetime.now(), in microseconds. *)
Variable clock : nat -> Z.

Definition now : M runtime Z :=
  fun r => (Return (clock (reads r)),
            {| reads := S (reads r); trace := trace r |}).

Definition emit (e : effect) : M runtime unit :=
  modify (fun r => {| reads := reads r; trace := trace r ++ [e] |}).

(** timeDelta(aTime): diff.seconds + (diff.microseconds / 1000000) *)
Definition timeDelta (aTime : Z) : M runtime float :=
  t <- now ;;
  let diff := t - aTime in
  let seconds := (diff mod 86400000000) / 1000000 in
  let microseconds := diff mod 1000000 in
  ret (float_of_Z seconds
       + float_of_Z microseconds / float_of_Z 1000000)%float.

(** The statements of frameLoop before its while True. *)
Definition frameLoop_init : M runtime loopVars :=
  lastFrameTime0 <- now ;;
  baseDelay0 <- truediv_int 1 (config.framesPerSecond cfg) ;;
  timeSinceLastUpdate0 <- truediv_int 1 (config.updatesPerSecond cfg) ;;
  lastFSPLog0 <- now ;;
  ret {| lastFrameTime := lastFrameTime0;
         baseDelay := baseDelay0;
         delay := baseDelay0;
         deltas := [];
         timeSinceLastUpdate := timeSinceLastUpdate0;
         lastFSPLog := lastFSPLog0;
         frameCount := 0 |}.

(** deltas.append(frameDelta), and deltas.pop(0) beyond 15 samples *)
Definition push_delta (deltas0 : list float) (frameDelta : float) : list float :=
  let deltas1 := deltas0 ++ [frameDelta] in
  if 15 <? Z.of_nat (length deltas1) then tail deltas1 else deltas1.

(** "Adjust delay to try to keep the actual frame rate within 5% of the
    target", and the floor that follows it: the new value of [delay] *)
Definition adjust_delay (delay0 baseDelay0 : float) (deltas0 : list float)
  : M runtime float :=
  avgDelta <- truediv (sum deltas0) (float_of_Z (Z.of_nat (length deltas0))) ;;
  let ratio := (avgDelta * float_of_Z (config.framesPerSecond cfg))%float in
  let delay1 :=
    if (ratio <? 0.95)%float then (delay0 + baseDelay0 * 0.01)%float
    else if (1.05 <? ratio)%float then (delay0 - baseDelay0 * 0.01)%float
    else delay0 in
  floor <- truediv_int 1 250 ;;
  if (delay1 <? floor)%float then truediv_int 1 250 else ret delay1.

(** "Log FPS if server logging is enabled": the new values of
    [frameCount] and [lastFSPLog] *)
Definition log_fps (frameCount0 lastFSPLog0 : Z) : M runtime (Z * Z) :=
  if config.logLevel cfg >=? 1 then
    let frameCount1 := frameCount0 + 1 in
    elapsed <- timeDelta lastFSPLog0 ;;
    if (float_of_Z 5 <=? elapsed)%float then
      fps <- truediv_int frameCount1 5 ;;
      emit (PrintFPS fps) ;;;
      t <- now ;;
      ret (0, t)
    else ret (frameCount1, lastFSPLog0)
  else ret (frameCount0, lastFSPLog0).

(** "Run updateCallback at the rate set in config.py": the new value of
    [timeSinceLastUpdate] *)
Definition run_update (timeSinceLastUpdate0 frameDelta : float)
  : M runtime float :=
  let timeSinceLastUpdate1 := (timeSinceLastUpdate0 + frameDelta)%float in
  threshold <- truediv_int 1 (config.updatesPerSecond cfg) ;;
  if (threshold <=? timeSinceLastUpdate1)%float then
    emit CallUpdate ;;; ret 0%float
  else ret timeSinceLastUpdate1.

(** The body of the while True, from [deltas.append(frameDelta)] on. *)
Definition frameLoop_tick (v : loopVars) (frameDelta : float)
  : M runtime loopVars :=
  let deltas' := push_delta (deltas v) frameDelta in
  delay' <- adjust_delay (delay v) (baseDelay v) deltas' ;;
  logged <- log_fps (frameCount v) (lastFSPLog v) ;;
  emit (CallFrame frameDelta) ;;;
  timeSinceLastUpdate' <- run_update (timeSinceLastUpdate v) frameDelta ;;
  emit (Sleep delay') ;;;
  ret {| lastFrameTime := lastFrameTime v;
         baseDelay := baseDelay v;
         delay := delay';
         deltas := deltas';
         timeSinceLastUpdate := timeSinceLastUpdate';
         lastFSPLog := snd logged;
         frameCount := fst logged |}.

(** One turn of the while True, up to and including its await. *)
Definition frameLoop_body (v : loopVars) : M runtime loopVars :=
  frameDelta <- timeDelta (lastFrameTime v) ;;
  t <- now ;;
  frameLoop_tick
    {| lastFrameTime := t; baseDelay := baseDelay v; delay := delay v;
       deltas := deltas v; timeSinceLastUpdate := timeSinceLastUpdate v;
       lastFSPLog := lastFSPLog v; frameCount := frameCount v |}
    frameDelta.

Fixpoint iterate (n : nat) (v : loopVars) : M runtime loopVars :=
  match n with
  | O => ret v
  | S n' => v' <- iterate n' v ;; frameLoop_body v'
  end.

(** frameLoop(), observed after [n] turns of its loop. *)
Definition frameLoop (n : nat) : M runtime loopVars :=
  v <- frameLoop_init ;; iterate n v.

End FrameLoop.

End binary64.

(** ** gameClasses.py: tank *)

Module gameClasses.

(** The values stored in an instance dict. *)
Inductive pyval :=
| PyNum (q : Q)
| PyInt (z : Z)
| PyBool (b : bool)
| PyStr (s : string)
| PyDatetime (t : Z).

(** class tank: the attributes set by __init__ *)
Record tank := {
  x : Q;
  y : Q;
  heading : Q;
  moving : bool;
  lastShotTime : Z;          (* self.__lastShotTime, in microseconds *)
  status : string;
  kills : Z;
  wins : Z
}.

(** tank(x, y, heading), built at the instant [now]; [reloadTime] is
    config.gameSettings.tankProps.reloadTime in microseconds, a parameter
    (the revision of config.py at hand does not define it). *)
Definition tank_init (cfg : config.serverSettingsT) (reloadTime now : Z)
    (x0 y0 heading0 : Q) : tank :=
  {| x := x0; y := y0; heading := heading0; moving := false;
     lastShotTime := now - reloadTime;
     status := config.tankStatus_dead cfg;
     kills := 0; wins := 0 |}.

(** tank.canShoot(), called at the instant [now]; marginOfError is 0.2 s,
    and [reloadTime] is in microseconds as for [tank_init] *)
Definition canShoot (reloadTime now : Z) (self : tank) : bool :=
  reloadTime - 200000 <=? now - lastShotTime self.

(** tank.didShoot(), called at the instant [now] *)
Definition didShoot (now : Z) (self : tank) : tank :=
  {| x := x self; y := y self; heading := heading self; moving := moving self;
     lastShotTime := now;
     status := status self; kills := kills self; wins := wins self |}.

(** self.__dict__; the private attribute is stored under its mangled name *)
Definition tank_dict (self : tank) : gmap string pyval :=
  <["wins" := PyInt (wins self)]>
  (<["kills" := PyInt (kills self)]>
  (<["status" := PyStr (status self)]>
  (<["_tank__lastShotTime" := PyDatetime (lastShotTime self)]>
  (<["moving" := PyBool (moving self)]>
  (<["heading" := PyNum (heading self)]>
  (<["y" := PyNum (y self)]>
  (<["x" := PyNum (x self)]> ∅))))))).

(** del myDict[key]: KeyError when the key is absent *)
Definition dict_del (key : string) : M (gmap string pyval) unit :=
  fun d => match d !! key with
           | Some _ => (Return tt, delete key d)
           | None => (Raise KeyError, d)
           end.

(** tank.toDict(doClean) *)
Definition toDict (self : tank) (doClean : bool) : res (gmap string pyval) :=
  let body : M (gmap string pyval) unit :=
    dict_del "_tank__lastShotTime" ;;;
    if doClean then dict_del "kills" ;;; dict_del "wins" else ret tt in
  match body (tank_dict self) with
  | (Return _, myDict) => Return myDict
  | (Raise e, _) => Raise e
  end.

End gameClasses.

(** * Properties *)

(** ** Unfolding the monad *)

Ltac munfold :=
  unfold clients_pop, outgoing_append, incoming_append, logPrint in *;
  unfold clients_getitem, clients_setitem, clients_contains, print,
    create_sendTask in *;
  unfold bind, ret, raise, get, modify, lift, try_except, exec,
    set_clients in *;
  cbv beta iota in *.

Lemma bind_Return {S A B} (m : M S A) (k : A -> M S B) s a s' :
  m s = (Return a, s') -> bind m k s = k a s'.
Proof. intros H. unfold bind. now rewrite H. Qed.

Lemma bind_Raise {S A B} (m : M S A) (k : A -> M S B) s e s' :
  m s = (Raise e, s') -> bind m k s = (Raise e, s').
Proof. intros H. unfold bind. now rewrite H. Qed.

(** ** The registry primitives *)

Lemma clients_pop_absent w clientID :
  clients w !! clientID = None ->
  clients_pop clientID w = (Raise KeyError, w).
Proof. intros H. munfold. now rewrite H. Qed.

Lemma clients_pop_present w clientID c :
  clients w !! clientID = Some c ->
  clients_pop clientID w = (Return c, set_clients (delete clientID) w).
Proof. intros H. munfold. now rewrite H. Qed.

Lemma outgoing_append_absent w clientID message :
  clients w !! clientID = None ->
  outgoing_append clientID message w = (Raise KeyError, w).
Proof. intros H. munfold. now rewrite H. Qed.

(** ** send *)

(** C1, as the design document has it, fails: sending to an integer identity
    that is not registered is not silent. *)
Lemma send_absent_not_silent :
  ~ (forall cfg w clientID message,
       clients w !! clientID = None ->
       exists w', send cfg (inl clientID) message w = (Return tt, w')
                  /\ clients w' = clients w).
Proof.
  intros H.
  destruct (H (config.serverSettings [] "dead")
              {| clients := ∅; stdout := []; tasks := [] |} 7 "state")
    as (w' & Hsend & _); [reflexivity|].
  discriminate Hsend.
Qed.

(** C1 (amended): for every call of send(recipient, message) with an integer
    identity that is not present in the client registry, the lookup
    clients[recipient] raises KeyError; the call changes no queue of any
    client (the whole state is as before, nothing is logged). *)
Theorem send_absent_raises cfg w clientID message :
  clients w !! clientID = None ->
  send cfg (inl clientID) message w = (Raise KeyError, w).
Proof.
  intros H. unfold send.
  apply bind_Raise. now apply outgoing_append_absent.
Qed.

Lemma send_absent_raises_witness :
  clients {| clients := ∅; stdout := []; tasks := [] |} !! 7 = None /\
  send (config.serverSettings [] "dead") (inl 7) "state"
       {| clients := ∅; stdout := []; tasks := [] |}
  = (Raise KeyError, {| clients := ∅; stdout := []; tasks := [] |}).
Proof.
  split; [reflexivity|].
  apply (send_absent_raises (config.serverSettings [] "dead")
           {| clients := ∅; stdout := []; tasks := [] |} 7 "state").
  reflexivity.
Defined.

(** ** Removal from the registry *)

(** C7, as the design document has it, fails: clients.pop(clientID) on an
    identity that is not registered raises. *)
Lemma clients_pop_not_idempotent :
  ~ (forall w clientID,
       clients w !! clientID = None ->
       exists c, clients_pop clientID w = (Return c, w)).
Proof.
  intros H.
  destruct (H {| clients := ∅; stdout := []; tasks := [] |} 7)
    as (c & Hpop); [reflexivity|].
  discriminate Hpop.
Qed.

(** C7 (amended): removing an identity that is registered deletes exactly
    that entry; removing an identity that is not (or no longer) present
    leaves the registry unchanged but raises KeyError, and the handler that
    does so on a closed connection ends with that error. *)
Theorem clients_pop_spec cfg w clientID :
  match clients w !! clientID with
  | Some c =>
      clients_pop clientID w = (Return c, set_clients (delete clientID) w)
  | None =>
      clients_pop clientID w = (Raise KeyError, w) /\
      forall code,
        clientHandler_recv cfg clientID (Raise (ConnectionClosed code)) w
        = (Raise KeyError, w)
  end.
Proof.
  destruct (clients w !! clientID) as [c|] eqn:E.
  - now apply clients_pop_present.
  - split; [now apply clients_pop_absent|].
    intros code. unfold clientHandler_recv. munfold. simpl. now rewrite E.
Qed.

(** ** The receive loop of clientHandler *)

Lemma recv_ConnectionClosed cfg w clientID c code :
  clients w !! clientID = Some c ->
  exists w',
    clientHandler_recv cfg clientID (Raise (ConnectionClosed code)) w
    = (Return (Finished clientID), w')
    /\ clients w' = delete clientID (clients w)
    /\ tasks w' = tasks w.
Proof.
  intros H. unfold clientHandler_recv. munfold. rewrite H.
  destruct (config.logLevel cfg >=? 1); eexists; (split; [reflexivity|]);
    split; reflexivity.
Qed.





(** ** tank.toDict *)

(** C9: for every tank, the cleaned snapshot (doClean true) has neither
    "kills", nor "wins", nor the last-shot timestamp; the unclean snapshot
    (doClean false) has no last-shot timestamp either, and keeps "kills"
    and "wins".  Neither call raises, and the other attributes are kept. *)
Theorem toDict_fields (self : gameClasses.tank) :
  (exists d : gmap string gameClasses.pyval,
     gameClasses.toDict self true = Return d
     /\ d !! "kills" = None /\ d !! "wins" = None
     /\ d !! "_tank__lastShotTime" = None
     /\ dom d = {[ "x"; "y"; "heading"; "moving"; "status" ]}) /\
  (exists d : gmap string gameClasses.pyval,
     gameClasses.toDict self false = Return d
     /\ d !! "_tank__lastShotTime" = None
     /\ d !! "kills" = Some (gameClasses.PyInt (gameClasses.kills self))
     /\ d !! "wins" = Some (gameClasses.PyInt (gameClasses.wins self))
     /\ dom d = {[ "x"; "y"; "heading"; "moving"; "status"; "kills"; "wins" ]}).
Proof.
  split; eexists; (split; [reflexivity|]); repeat split; try reflexivity.
Qed.

(** ** frameLoop *)

Lemma Qlt_bool_iff a b : Qlt_bool a b = true <-> (a < b)%Q.
Proof.
  unfold Qlt_bool. rewrite negb_true_iff. split.
  - intros H. apply Qnot_le_lt. intros L. apply Qle_bool_iff in L. congruence.
  - intros H. destruct (Qle_bool b a) eqn:E; [|reflexivity].
    apply Qle_bool_iff in E. now apply Qlt_not_le in H.
Qed.

Lemma Qlt_bool_false a b : Qlt_bool a b = false <-> (b <= a)%Q.
Proof.
  unfold Qlt_bool. rewrite negb_false_iff. apply Qle_bool_iff.
Qed.

Lemma Qge_bool_iff a b : Qge_bool a b = true <-> (b <= a)%Q.
Proof. apply Qle_bool_iff. Qed.

Lemma Qge_bool_false a b : Qge_bool a b = false <-> (a < b)%Q.
Proof.
  unfold Qge_bool. split.
  - intros H. apply Qnot_le_lt. intros L. apply Qle_bool_iff in L. congruence.
  - intros H. destruct (Qle_bool b a) eqn:E; [|reflexivity].
    apply Qle_bool_iff in E. now apply Qlt_not_le in H.
Qed.

Lemma truediv_ok {S} (a b : Q) (s : S) :
  ~ (b == 0)%Q -> truediv a b s = (Return (a / b)%Q, s).
Proof.
  intros H. unfold truediv. destruct (Qeq_bool b 0) eqn:E; [|reflexivity].
  apply Qeq_bool_iff in E. contradiction.
Qed.

Lemma sleeps_app t1 t2 : sleeps (t1 ++ t2) = sleeps t1 ++ sleeps t2.
Proof.
  induction t1 as [|e t1 IH]; [reflexivity|].
  destruct e; simpl; now rewrite IH.
Qed.

Lemma updates_app t1 t2 : updates (t1 ++ t2) = (updates t1 + updates t2)%nat.
Proof.
  induction t1 as [|e t1 IH]; [reflexivity|].
  destruct e; simpl; now rewrite IH.
Qed.

Section FrameLoopFacts.

Variable cfg : config.serverSettingsT.
Variable clock : nat -> Z.

Hypothesis fps_nonzero : config.framesPerSecond cfg <> 0.
Hypothesis ups_nonzero : config.updatesPerSecond cfg <> 0.

Lemma framesPerSecond_nonzero : ~ (framesPerSecond cfg == 0)%Q.
Proof.
  unfold framesPerSecond, Qeq. simpl. lia.
Qed.

Lemma updatesPerSecond_nonzero : ~ (updatesPerSecond cfg == 0)%Q.
Proof.
  unfold updatesPerSecond, Qeq. simpl. lia.
Qed.

(** timeDelta reads the clock once and is never negative. *)
Lemma timeDelta_spec aTime r :
  exists q,
    timeDelta clock aTime r
    = (Return q, {| reads := S (reads r); trace := trace r |})
    /\ (0 <= q)%Q.
Proof.
  unfold timeDelta, now. munfold. eexists. split; [reflexivity|].
  set (d := clock (reads r) - aTime).
  assert (0 <= (d mod 86400000000) / 1000000)
    by (apply Z.div_pos; [apply Z.mod_pos_bound|]; lia).
  assert (0 <= d mod 1000000) by (apply Z.mod_pos_bound; lia).
  apply Qle_trans with (inject_Z ((d mod 86400000000) / 1000000) + 0)%Q.
  - rewrite Qplus_0_r. unfold Qle. simpl. lia.
  - apply Qplus_le_r. apply Qle_shift_div_l; [reflexivity|].
    rewrite Qmult_0_l. unfold Qle. simpl. lia.
Qed.


Lemma push_delta_nonempty ds d : push_delta ds d <> [].
Proof.
  unfold push_delta.
  destruct (15 <? Z.of_nat (length (ds ++ [d]))) eqn:E.
  - apply Z.ltb_lt in E. rewrite length_app in E. simpl in E.
    destruct ds as [|a [|b ds]]; simpl in *; try lia; discriminate.
  - destruct ds; discriminate.
Qed.

Lemma push_delta_length ds d :
  (length ds <= 15)%nat ->
  length (push_delta ds d) = Nat.min (S (length ds)) 15.
Proof.
  intros H. unfold push_delta.
  destruct (15 <? Z.of_nat (length (ds ++ [d]))) eqn:E.
  - apply Z.ltb_lt in E. rewrite length_app in E. simpl in E.
    destruct ds as [|a ds]; simpl in *; [lia|].
    rewrite length_app. simpl. lia.
  - apply Z.ltb_ge in E. rewrite length_app in *. simpl in *. lia.
Qed.

(** The adjustment block: the three cases, and the floor. *)
Lemma adjust_delay_spec delay0 baseDelay0 deltas0 r :
  deltas0 <> [] ->
  exists q,
    adjust_delay cfg delay0 baseDelay0 deltas0 r = (Return q, r)
    /\ (1 / 250 <= q)%Q
    /\ let ratio := (sum deltas0 / inject_Z (Z.of_nat (length deltas0))
                     * framesPerSecond cfg)%Q in
       ((ratio < 0.95)%Q ->
          (q == Qmax (1 / 250) (delay0 + baseDelay0 * 0.01))%Q)
       /\ ((1.05 < ratio)%Q ->
          (q == Qmax (1 / 250) (delay0 - baseDelay0 * 0.01))%Q)
       /\ ((0.95 <= ratio)%Q -> (ratio <= 1.05)%Q ->
          (q == Qmax (1 / 250) delay0)%Q).
Proof.
  intros Hne. unfold adjust_delay.
  assert (Hlen : ~ (inject_Z (Z.of_nat (length deltas0)) == 0)%Q).
  { destruct deltas0; [congruence|]. unfold Qeq. simpl. lia. }
  assert (H250 : ~ (250 == 0)%Q) by discriminate.
  set (ratio := (sum deltas0 / inject_Z (Z.of_nat (length deltas0))
                 * framesPerSecond cfg)%Q).
  set (delay1 :=
         if Qlt_bool ratio 0.95 then (delay0 + baseDelay0 * 0.01)%Q
         else if Qlt_bool 1.05 ratio then (delay0 - baseDelay0 * 0.01)%Q
         else delay0).
  assert (Hrun : exists q,
             adjust_delay cfg delay0 baseDelay0 deltas0 r = (Return q, r)
             /\ (1 / 250 <= q)%Q /\ (q == Qmax (1 / 250) delay1)%Q).
  { unfold adjust_delay.
    rewrite (bind_Return _ _ _ _ _ (truediv_ok _ _ r Hlen)).
    rewrite (bind_Return _ _ _ _ _ (truediv_ok 1 250 r H250)).
    fold ratio. fold delay1.
    destruct (Qlt_bool delay1 (1 / 250)) eqn:E.
    - rewrite (truediv_ok 1 250 r H250). eexists. split; [reflexivity|].
      apply Qlt_bool_iff in E. split; [apply Qle_refl|].
      symmetry. apply Q.max_l. now apply Qlt_le_weak.
    - apply Qlt_bool_false in E. eexists. split; [reflexivity|].
      split; [exact E|]. symmetry. now apply Q.max_r. }
  destruct Hrun as (q & Hq & Hfloor & Hmax).
  exists q. split; [exact Hq|]. split; [exact Hfloor|].
  repeat split.
  - intros Hlt. rewrite Hmax. unfold delay1.
    apply Qlt_bool_iff in Hlt. now rewrite Hlt.
  - intros Hgt. rewrite Hmax. unfold delay1.
    assert (Hlo : Qlt_bool ratio 0.95 = false).
    { apply Qlt_bool_false. apply Qlt_le_weak.
      apply Qlt_trans with 1.05%Q; [reflexivity|exact Hgt]. }
    apply Qlt_bool_iff in Hgt. now rewrite Hlo, Hgt.
  - intros Hlo Hhi. rewrite Hmax. unfold delay1.
    apply Qlt_bool_false in Hlo. apply Qlt_bool_false in Hhi.
    now rewrite Hlo, Hhi.
Qed.

(** The logging block neither sleeps nor calls updateCallback. *)
Lemma log_fps_spec frameCount0 lastFSPLog0 r :
  exists out r',
    log_fps cfg clock frameCount0 lastFSPLog0 r = (Return out, r')
    /\ sleeps (trace r') = sleeps (trace r)
    /\ updates (trace r') = updates (trace r).
Proof.
  unfold log_fps. destruct (config.logLevel cfg >=? 1).
  - destruct (timeDelta_spec lastFSPLog0 r) as (q & Hq & _).
    rewrite (bind_Return _ _ _ _ _ Hq).
    destruct (Qge_bool q 5).
    + rewrite (bind_Return _ _ _ _ _ (truediv_ok _ 5 _ ltac:(discriminate))).
      unfold emit, now. munfold. simpl.
      do 2 eexists. split; [reflexivity|]. simpl.
      rewrite sleeps_app, updates_app. simpl.
      rewrite app_nil_r. split; [reflexivity|lia].
    + do 2 eexists. split; [reflexivity|]. split; reflexivity.
  - do 2 eexists. split; [reflexivity|]. split; reflexivity.
Qed.

(** The update block. *)
Lemma run_update_spec timeSinceLastUpdate0 frameDelta r :
  exists q r',
    run_update cfg timeSinceLastUpdate0 frameDelta r = (Return q, r')
    /\ sleeps (trace r') = sleeps (trace r)
    /\ ((1 / updatesPerSecond cfg <= timeSinceLastUpdate0 + frameDelta)%Q ->
        q = 0%Q /\ updates (trace r') = S (updates (trace r)))
    /\ ((timeSinceLastUpdate0 + frameDelta < 1 / updatesPerSecond cfg)%Q ->
        q = (timeSinceLastUpdate0 + frameDelta)%Q
        /\ updates (trace r') = updates (trace r)).
Proof.
  unfold run_update.
  rewrite (bind_Return _ _ _ _ _
             (truediv_ok 1 _ r updatesPerSecond_nonzero)).
  destruct (Qge_bool (timeSinceLastUpdate0 + frameDelta)
              (1 / updatesPerSecond cfg)) eqn:E.
  - apply Qge_bool_iff in E. unfold emit. munfold.
    do 2 eexists. split; [reflexivity|]. simpl.
    rewrite sleeps_app, updates_app. simpl. rewrite app_nil_r.
    split; [reflexivity|]. split.
    + intros _. split; [reflexivity|lia].
    + intros Hlt. now apply Qlt_not_le in Hlt.
  - apply Qge_bool_false in E.
    do 2 eexists. split; [reflexivity|]. split; [reflexivity|]. split.
    + intros Hle. now apply Qlt_not_le in E.
    + intros _. split; reflexivity.
Qed.


(** One turn, given its frameDelta. *)
Lemma frameLoop_tick_spec v d r :
  exists v' r',
    frameLoop_tick cfg clock v d r = (Return v', r')
    /\ baseDelay v' = baseDelay v
    /\ deltas v' = push_delta (deltas v) d
    /\ sleeps (trace r') = sleeps (trace r) ++ [delay v']
    /\ (1 / 250 <= delay v')%Q
    /\ (let ratio := (sum (deltas v') / inject_Z (Z.of_nat (length (deltas v')))
                      * framesPerSecond cfg)%Q in
        ((ratio < 0.95)%Q ->
           (delay v' == Qmax (1 / 250) (delay v + baseDelay v * 0.01))%Q)
        /\ ((1.05 < ratio)%Q ->
           (delay v' == Qmax (1 / 250) (delay v - baseDelay v * 0.01))%Q)
        /\ ((0.95 <= ratio)%Q -> (ratio <= 1.05)%Q ->
           (delay v' == Qmax (1 / 250) (delay v))%Q))
    /\ ((1 / updatesPerSecond cfg <= timeSinceLastUpdate v + d)%Q ->
        timeSinceLastUpdate v' = 0%Q
        /\ updates (trace r') = S (updates (trace r)))
    /\ ((timeSinceLastUpdate v + d < 1 / updatesPerSecond cfg)%Q ->
        timeSinceLastUpdate v' = (timeSinceLastUpdate v + d)%Q
        /\ updates (trace r') = updates (trace r)).
Proof.
  unfold frameLoop_tick.
  destruct (adjust_delay_spec (delay v) (baseDelay v) (push_delta (deltas v) d)
              r (push_delta_nonempty _ _)) as (q & Hq & Hfloor & Hadj).
  rewrite (bind_Return _ _ _ _ _ Hq).
  destruct (log_fps_spec (frameCount v) (lastFSPLog v) r)
    as (out & r1 & Hlog & Hs1 & Hu1).
  rewrite (bind_Return _ _ _ _ _ Hlog).
  unfold emit at 1. unfold bind at 1, modify at 1. cbv beta iota.
  set (r2 := {| reads := reads r1; trace := trace r1 ++ [CallFrame d] |}).
  destruct (run_update_spec (timeSinceLastUpdate v) d r2)
    as (t & r3 & Hupd & Hs3 & Hyes & Hno).
  rewrite (bind_Return _ _ _ _ _ Hupd).
  unfold emit, bind, modify, ret. cbv beta iota.
  do 2 eexists. split; [reflexivity|]. simpl.
  assert (Hs2 : sleeps (trace r2) = sleeps (trace r)).
  { unfold r2. simpl. rewrite sleeps_app, Hs1. simpl. apply app_nil_r. }
  assert (Hu2 : updates (trace r2) = updates (trace r)).
  { unfold r2. simpl. rewrite updates_app, Hu1. simpl. lia. }
  split; [reflexivity|]. split; [reflexivity|].
  split; [rewrite sleeps_app, Hs3, Hs2; reflexivity|].
  split; [exact Hfloor|]. split; [exact Hadj|].
  split.
  - intros H. destruct (Hyes H) as [-> Hu]. split; [reflexivity|].
    rewrite updates_app, Hu, Hu2. simpl. lia.
  - intros H. destruct (Hno H) as [-> Hu]. split; [reflexivity|].
    rewrite updates_app, Hu, Hu2. simpl. lia.
Qed.

(** One turn: it measures a frameDelta, never negative, and goes on as
    frameLoop_tick does with it. *)
Lemma frameLoop_body_spec v r :
  exists d r1 t,
    timeDelta clock (lastFrameTime v) r = (Return d, r1)
    /\ (0 <= d)%Q
    /\ frameLoop_body cfg clock v r
       = frameLoop_tick cfg clock
           {| lastFrameTime := t; baseDelay := baseDelay v; delay := delay v;
              deltas := deltas v;
              timeSinceLastUpdate := timeSinceLastUpdate v;
              lastFSPLog := lastFSPLog v; frameCount := frameCount v |}
           d {| reads := S (S (reads r)); trace := trace r |}.
Proof.
  destruct (timeDelta_spec (lastFrameTime v) r) as (d & Hd & Hpos).
  exists d. eexists. eexists. split; [exact Hd|]. split; [exact Hpos|].
  unfold frameLoop_body. rewrite (bind_Return _ _ _ _ _ Hd).
  reflexivity.
Qed.

Lemma frameLoop_init_spec r :
  exists t0 t1,
    frameLoop_init cfg clock r
    = (Return {| lastFrameTime := t0;
                 baseDelay := (1 / framesPerSecond cfg)%Q;
                 delay := (1 / framesPerSecond cfg)%Q;
                 deltas := [];
                 timeSinceLastUpdate := (1 / updatesPerSecond cfg)%Q;
                 lastFSPLog := t1;
                 frameCount := 0 |},
       {| reads := S (S (reads r)); trace := trace r |}).
Proof.
  unfold frameLoop_init, now. unfold bind at 1. cbv beta iota.
  rewrite (bind_Return _ _ _ _ _ (truediv_ok 1 _ _ framesPerSecond_nonzero)).
  rewrite (bind_Return _ _ _ _ _ (truediv_ok 1 _ _ updatesPerSecond_nonzero)).
  do 2 eexists. reflexivity.
Qed.

Lemma frameLoop_succ n r :
  frameLoop cfg clock (S n) r
  = bind (frameLoop cfg clock n) (frameLoop_body cfg clock) r.
Proof.
  unfold frameLoop. simpl. unfold bind.
  destruct (frameLoop_init cfg clock r) as [[v0|e] r0]; reflexivity.
Qed.

(** What holds after [n] turns of the loop. *)
Lemma frameLoop_spec n :
  exists v r,
    frameLoop cfg clock n start = (Return v, r)
    /\ baseDelay v = (1 / framesPerSecond cfg)%Q
    /\ length (deltas v) = Nat.min n 15
    /\ length (sleeps (trace r)) = n
    /\ Forall (fun d => (1 / 250 <= d)%Q) (sleeps (trace r))
    /\ (n <> O -> (1 / 250 <= delay v)%Q)
    /\ (n = O -> timeSinceLastUpdate v = (1 / updatesPerSecond cfg)%Q
                 /\ trace r = []).
Proof.
  induction n as [|n IH].
  - destruct (frameLoop_init_spec start) as (t0 & t1 & Hinit).
    do 2 eexists. split.
    + unfold frameLoop. rewrite (bind_Return _ _ _ _ _ Hinit). reflexivity.
    + simpl. repeat split; try reflexivity; try constructor; congruence.
  - destruct IH as (v & r & Hrun & Hbase & Hlen & Hcount & Hall & _).
    destruct (frameLoop_body_spec v r) as (d & r1 & t & _ & _ & Hbody).
    match type of Hbody with
    | _ = frameLoop_tick _ _ ?v0 _ ?r0 =>
        destruct (frameLoop_tick_spec v0 d r0)
          as (v' & r' & Htick & Hb' & Hd' & Hs' & Hfloor & _)
    end.
    simpl in *.
    exists v', r'. split.
    + rewrite frameLoop_succ, (bind_Return _ _ _ _ _ Hrun), Hbody. exact Htick.
    + split; [congruence|].
      split; [rewrite Hd', push_delta_length; lia|].
      split; [rewrite Hs', length_app; simpl; lia|].
      split; [rewrite Hs'; apply Forall_app; split;
              [exact Hall | repeat constructor; exact Hfloor]|].
      split; [intros _; exact Hfloor | discriminate].
Qed.

End FrameLoopFacts.



(** C4: the delay handed to asyncio.sleep is at least 1/250 second on every
    iteration of the loop, whatever the clock readings (hence whatever the
    measured frame deltas); the loop does reach its sleep on each of its
    [n] first iterations. *)
Theorem sleep_floor cfg clock n :
  config.framesPerSecond cfg <> 0 ->
  config.updatesPerSecond cfg <> 0 ->
  exists v r,
    frameLoop cfg clock n start = (Return v, r)
    /\ length (sleeps (trace r)) = n
    /\ Forall (fun seconds => (1 / 250 <= seconds)%Q) (sleeps (trace r)).
Proof.
  intros Hfps Hups.
  destruct (frameLoop_spec cfg clock Hfps Hups n)
    as (v & r & Hrun & _ & _ & Hcount & Hall & _).
  now exists v, r.
Qed.

Lemma sleep_floor_witness :
  let cfg := config.serverSettings [] "dead" in
  let clock := fun i : nat => 1000 * Z.of_nat i in
  config.framesPerSecond cfg <> 0 /\
  config.updatesPerSecond cfg <> 0 /\
  exists v r,
    frameLoop cfg clock 40 start = (Return v, r)
    /\ length (sleeps (trace r)) = 40%nat
    /\ Forall (fun seconds => (1 / 250 <= seconds)%Q) (sleeps (trace r)).
Proof.
  intros cfg clock.
  split; [simpl; lia|]. split; [simpl; lia|].
  apply (sleep_floor cfg clock 40); simpl; lia.
Defined.



(** C10: on the very first iteration of the loop updateCallback is always
    called, because the time since the last update starts at exactly
    1/updatesPerSecond: this holds with the frame delta the loop measures
    (timeDelta is never negative), and with any non-negative frame delta
    in its place. *)
Theorem first_update cfg clock :
  config.framesPerSecond cfg <> 0 ->
  config.updatesPerSecond cfg <> 0 ->
  (exists v r,
      frameLoop cfg clock 1 start = (Return v, r)
      /\ updates (trace r) = 1%nat
      /\ timeSinceLastUpdate v = 0%Q) /\
  (exists v0 r0,
      frameLoop_init cfg clock start = (Return v0, r0)
      /\ timeSinceLastUpdate v0 = (1 / updatesPerSecond cfg)%Q
      /\ forall frameDelta, (0 <= frameDelta)%Q ->
         exists v r,
           frameLoop_tick cfg clock v0 frameDelta r0 = (Return v, r)
           /\ updates (trace r) = 1%nat
           /\ timeSinceLastUpdate v = 0%Q).
Proof.
  intros Hfps Hups.
  assert (Hreach : forall t frameDelta, (0 <= frameDelta)%Q ->
            (1 / updatesPerSecond cfg <= t + frameDelta)%Q
            \/ ~ (t == 1 / updatesPerSecond cfg)%Q).
  { intros t d Hd.
    destruct (Qeq_dec t (1 / updatesPerSecond cfg)) as [E|E]; [left|now right].
    rewrite E. rewrite <- (Qplus_0_r (1 / updatesPerSecond cfg)) at 1.
    now apply Qplus_le_r. }
  split.
  - destruct (frameLoop_spec cfg clock Hfps Hups 0)
      as (v0 & r0 & Hrun & _ & _ & _ & _ & _ & Hzero).
    destruct (Hzero eq_refl) as (Ht & Htr).
    destruct (frameLoop_body_spec cfg clock v0 r0)
      as (d & r1 & t & _ & Hd & Hbody).
    match type of Hbody with
    | _ = frameLoop_tick _ _ ?v1 _ ?r1 =>
        destruct (frameLoop_tick_spec cfg clock Hups v1 d r1)
          as (v & r & Htick & _ & _ & _ & _ & _ & Hyes & _)
    end.
    simpl in *. exists v, r. split.
    + rewrite frameLoop_succ, (bind_Return _ _ _ _ _ Hrun), Hbody. exact Htick.
    + destruct (Hreach (timeSinceLastUpdate v0) d Hd) as [Hle|Hne].
      * destruct (Hyes Hle) as (Hv & Hu). rewrite Htr in Hu. now split.
      * rewrite Ht in Hne. now destruct Hne.
  - destruct (frameLoop_init_spec cfg clock Hfps Hups start)
      as (t0 & t1 & Hinit).
    do 2 eexists. split; [exact Hinit|]. split; [reflexivity|].
    intros d Hd.
    match goal with
    | |- exists v r, frameLoop_tick _ _ ?v1 _ ?r1 = _ /\ _ =>
        destruct (frameLoop_tick_spec cfg clock Hups v1 d r1)
          as (v & r & Htick & _ & _ & _ & _ & _ & Hyes & _)
    end.
    simpl in *. exists v, r. split; [exact Htick|].
    destruct (Hreach (1 / updatesPerSecond cfg)%Q d Hd) as [Hle|Hne].
    + destruct (Hyes Hle) as (Hv & Hu). now split.
    + now destruct Hne.
Qed.

Lemma first_update_witness :
  let cfg := config.serverSettings [] "dead" in
  let clock := fun i : nat => 16667 * Z.of_nat i in
  config.framesPerSecond cfg <> 0 /\
  config.updatesPerSecond cfg <> 0 /\
  exists v r,
    frameLoop cfg clock 1 start = (Return v, r)
    /\ updates (trace r) = 1%nat
    /\ timeSinceLastUpdate v = 0%Q.
Proof.
  intros cfg clock.
  split; [simpl; lia|]. split; [simpl; lia|].
  apply (first_update cfg clock); simpl; lia.
Defined.

(** ** Admission *)

Lemma randint_in_range {S} a b r (s : S) :
  a <= b ->
  exists i, randint a b r s = (Return i, s) /\ a <= i <= b.
Proof.
  intros H. unfold randint.
  destruct (b <? a) eqn:E; [apply Z.ltb_lt in E; lia|].
  eexists. split; [reflexivity|].
  pose proof (Z.mod_pos_bound r (b - a + 1)). lia.
Qed.

Lemma randint_empty {S} a b r (s : S) :
  b < a -> randint a b r s = (Raise ValueError, s).
Proof.
  intros H. unfold randint. apply Z.ltb_lt in H. now rewrite H.
Qed.


Section Admission.

Variable cfg : config.serverSettingsT.

Let playerType := config.type_player (config.clientTypes cfg).
Let slots := Z.of_nat (length (config.tankNames cfg)).

(** The draw loop leaves the state alone; what it returns is free, and lies
    in the namespace of the client type. *)
Lemma generate_clientID_spec clientType draws w :
  exists out,
    generate_clientID cfg clientType draws w = (out, w)
    /\ forall clientID, out = Return (Some clientID) ->
         clients w !! clientID = None
         /\ if String.eqb clientType playerType
            then 0 <= clientID < slots
            else 1000 <= clientID <= 9999.
Proof.
  induction draws as [|r draws IH]; simpl.
  - eexists. split; [reflexivity|]. discriminate.
  - fold playerType. fold slots.
    destruct (String.eqb clientType playerType) eqn:Ety.
    + destruct (Z_lt_le_dec (slots - 1) 0) as [Hempty|Hsome].
      * rewrite (bind_Raise _ _ _ _ _ (randint_empty 0 (slots - 1) r w Hempty)).
        eexists. split; [reflexivity|]. discriminate.
      * destruct (randint_in_range 0 (slots - 1) r w Hsome) as (i & Hi & Hrange).
        rewrite (bind_Return _ _ _ _ _ Hi). munfold.
        destruct (clients w !! i) eqn:Ei.
        -- exact IH.
        -- eexists. split; [reflexivity|].
           intros clientID [= <-]. split; [exact Ei|lia].
    + destruct (randint_in_range 1000 9999 r w ltac:(lia)) as (i & Hi & Hrange).
      rewrite (bind_Return _ _ _ _ _ Hi). munfold.
      destruct (clients w !! i) eqn:Ei.
      * exact IH.
      * eexists. split; [reflexivity|].
        intros clientID [= <-]. split; [exact Ei|lia].
Qed.


(** The registration block, once an identity is drawn. *)
Lemma clientHandler_register_drawn ws path clientType draws w clientID :
  generate_clientID cfg clientType draws w = (Return (Some clientID), w) ->
  exists w',
    clientHandler_register cfg ws path clientType draws w
    = (Return (Receiving clientID), w')
    /\ clients w' = <[clientID := client_init ws clientType]> (clients w)
    /\ tasks w' = tasks w ++ [clientID].
Proof.
  intros Hgen. unfold clientHandler_register.
  rewrite (bind_Return _ _ _ _ _ Hgen). munfold. simpl.
  rewrite lookup_insert_eq.
  destruct (config.logLevel cfg >=? 1); simpl; rewrite lookup_insert_eq;
    eexists; (split; [reflexivity|]); split; reflexivity.
Qed.

Lemma clientHandler_register_spec ws path clientType draws w clientID w' :
  clientHandler_register cfg ws path clientType draws w
  = (Return (Receiving clientID), w') ->
  clients w !! clientID = None
  /\ clients w' = <[clientID := client_init ws clientType]> (clients w)
  /\ tasks w' = tasks w ++ [clientID]
  /\ if String.eqb clientType playerType
     then 0 <= clientID < slots
     else 1000 <= clientID <= 9999.
Proof.
  intros Hreg.
  destruct (generate_clientID_spec clientType draws w) as (out & Hgen & Hout).
  destruct out as [[i|]|e].
  - destruct (clientHandler_register_drawn ws path clientType draws w i Hgen)
      as (w1 & Hreg1 & Hc & Ht).
    rewrite Hreg1 in Hreg. injection Hreg as <- <-.
    destruct (Hout i eq_refl) as (Hfree & Hrange). now repeat split.
  - unfold clientHandler_register in Hreg.
    rewrite (bind_Return _ _ _ _ _ Hgen) in Hreg. discriminate Hreg.
  - unfold clientHandler_register in Hreg.
    rewrite (bind_Raise _ _ _ _ _ Hgen) in Hreg. discriminate Hreg.
Qed.

End Admission.



(** ** The drain loop *)

Section Drain.

Variable cfg : config.serverSettingsT.

(** What [send] does to the entry of a session. *)
Lemma send_one_entry i message w clientID :
  clients (exec (send cfg (inl i) message) w) !! clientID
  = if decide (i = clientID)
    then appended message <$> clients w !! clientID
    else clients w !! clientID.
Proof.
  unfold send. munfold.
  destruct (clients w !! i) eqn:Ei; simpl.
  - destruct (config.logLevel cfg >=? 2); simpl;
      (case_decide; [subst; rewrite lookup_insert_eq, Ei; reflexivity
                    | now rewrite lookup_insert_ne]).
  - case_decide; [subst; now rewrite Ei | reflexivity].
Qed.

Lemma broadcast_loop ty message ks :
  NoDup ks ->
  forall w,
    (forall k, k ∈ ks -> is_Some (clients w !! k)) ->
    exists w',
      for_each ks (fun clientID =>
        c <- clients_getitem clientID ;;
        if String.eqb (type c) ty
        then outgoing_append clientID message
        else ret tt) w = (Return tt, w')
      /\ forall k,
           clients w' !! k
           = if decide (k ∈ ks)
             then (fun c => if String.eqb (type c) ty
                            then appended message c else c) <$> clients w !! k
             else clients w !! k.
Proof.
  induction 1 as [|x ks Hx Hks IH]; intros w Hin.
  - exists w. split; [reflexivity|]. intros k.
    case_decide as E; [inversion E | reflexivity].
  - destruct (Hin x ltac:(left)) as (c & Hc).
    simpl.
    set (w1 := if String.eqb (type c) ty
               then set_clients <[x := appended message c]> w else w).
    assert (Hstep :
      (c0 <- clients_getitem x ;;
       (if String.eqb (type c0) ty then outgoing_append x message else ret tt)) w
      = (Return tt, w1)).
    { munfold. rewrite Hc. unfold w1.
      destruct (String.eqb (type c) ty); [|reflexivity].
      now rewrite Hc. }
    assert (Hlook : forall k,
      clients w1 !! k
      = if decide (k = x)
        then (fun c => if String.eqb (type c) ty
                       then appended message c else c) <$> clients w !! k
        else clients w !! k).
    { intros k. unfold w1.
      destruct (String.eqb (type c) ty) eqn:Ety; simpl;
        case_decide; subst;
        rewrite ?lookup_insert_eq, ?Hc; simpl; rewrite ?Ety; try reflexivity.
      now rewrite lookup_insert_ne. }
    destruct (IH w1) as (w' & Hrun & Hw').
    { intros k Hk. rewrite Hlook.
      destruct (Hin k ltac:(now right)) as (ck & Hck).
      case_decide; rewrite Hck; simpl; eauto. }
    exists w'. split.
    + rewrite (bind_Return _ _ _ _ _ Hstep). exact Hrun.
    + intros k. rewrite Hw', Hlook.
      destruct (decide (k = x)) as [->|Hne].
      * rewrite decide_False by exact Hx.
        rewrite decide_True by left. reflexivity.
      * destruct (decide (k ∈ ks)) as [Hk|Hk].
        -- rewrite decide_True by now right. reflexivity.
        -- rewrite decide_False; [reflexivity|].
           intros E. apply elem_of_cons in E. tauto.
Qed.

Lemma send_type_entry ty message w clientID :
  clients (exec (send cfg (inr ty) message) w) !! clientID
  = (fun c => if String.eqb (type c) ty then appended message c else c)
    <$> clients w !! clientID.
Proof.
  destruct (broadcast_loop ty message (map_to_list (clients w)).*1
              (NoDup_fst_map_to_list _) w) as (w' & Hrun & Hw').
  { intros k Hk. apply list_elem_of_fmap in Hk as ([k' c] & -> & Hk).
    apply elem_of_map_to_list in Hk. simpl. eauto. }
  unfold send, exec. unfold bind at 1. unfold bind at 1, get at 1.
  cbv beta iota. rewrite Hrun.
  assert (E : clients w' !! clientID
              = (fun c => if String.eqb (type c) ty
                          then appended message c else c)
                <$> clients w !! clientID).
  { rewrite Hw'. case_decide as Hk; [reflexivity|].
    destruct (clients w !! clientID) as [c|] eqn:Ec; [|reflexivity].
    destruct Hk. apply list_elem_of_fmap. exists (clientID, c).
    split; [reflexivity|]. now apply elem_of_map_to_list. }
  destruct (config.logLevel cfg >=? 2); exact E.
Qed.













End Drain.



(** * Further properties of the code *)

(** ** send *)

Lemma broadcast_loop_frame ty message ks :
  forall w out w',
    for_each ks (fun clientID =>
      c <- clients_getitem clientID ;;
      if String.eqb (type c) ty
      then outgoing_append clientID message
      else ret tt) w = (out, w') ->
    stdout w' = stdout w /\ tasks w' = tasks w.
Proof.
  induction ks as [|x ks IH]; intros w out w' H.
  - injection H as <- <-. now split.
  - simpl in H. unfold bind at 1 in H.
    match type of H with
    | (let (_, _) := ?step w in _) = _ =>
        assert (Hstep : exists o w1, step w = (o, w1)
                  /\ stdout w1 = stdout w /\ tasks w1 = tasks w)
    end.
    { munfold. destruct (clients w !! x) as [c|] eqn:Ex.
      - destruct (String.eqb (type c) ty).
        + rewrite Ex. do 2 eexists. split; [reflexivity|]. now split.
        + do 2 eexists. split; [reflexivity|]. now split.
      - do 2 eexists. split; [reflexivity|]. now split. }
    destruct Hstep as (o & w1 & E & Hs & Ht). rewrite E in H.
    destruct o as [[]|e].
    + apply IH in H. destruct H as (Hs' & Ht'). split; congruence.
    + injection H as <- <-. now split.
Qed.

(** send to a registered identity returns normally; the message goes to the
    end of that session's outgoing queue and nowhere else; one line is
    printed when logLevel >= 2, none otherwise. *)
Theorem send_to_registered cfg w clientID c message :
  clients w !! clientID = Some c ->
  exists w',
    send cfg (inl clientID) message w = (Return tt, w')
    /\ clients w' = <[clientID := appended message c]> (clients w)
    /\ outgoing (appended message c) = outgoing c ++ [message]
    /\ tasks w' = tasks w
    /\ stdout w' = if config.logLevel cfg >=? 2
                   then stdout w ++ [LogQueued (inl clientID) message]
                   else stdout w.
Proof.
  intros Hc. unfold send. munfold. rewrite Hc.
  destruct (config.logLevel cfg >=? 2); eexists;
    (split; [reflexivity|]); now repeat split.
Qed.

Lemma send_to_registered_witness :
  let cfg := config.serverSettings ["red"] "dead" in
  let c := {| socket := {| ws_closed := None; ws_sent := [] |};
              type := "viewer"; outgoing := ["a"]; incoming := [] |} in
  let w := {| clients := {[ 1234 := c ]}; stdout := []; tasks := [1234] |} in
  clients w !! 1234 = Some c /\
  exists w',
    send cfg (inl 1234) "b" w = (Return tt, w')
    /\ clients w' = <[1234 := appended "b" c]> (clients w)
    /\ outgoing (appended "b" c) = ["a"; "b"]
    /\ tasks w' = tasks w
    /\ stdout w' = [].
Proof.
  intros cfg c w. split; [reflexivity|].
  apply (send_to_registered cfg w 1234 c "b"). reflexivity.
Defined.

(** send to a client type never raises: every registered session of that
    type gets the message at the end of its outgoing queue, every other
    session is left as it is (so a type no session has is a no-op), and
    no session is added or removed. *)
Theorem send_to_type cfg w ty message :
  exists w',
    send cfg (inr ty) message w = (Return tt, w')
    /\ clients w'
       = (fun c => if String.eqb (type c) ty then appended message c else c)
         <$> clients w
    /\ tasks w' = tasks w
    /\ stdout w' = if config.logLevel cfg >=? 2
                   then stdout w ++ [LogQueued (inr ty) message]
                   else stdout w.
Proof.
  destruct (broadcast_loop ty message (map_to_list (clients w)).*1
              (NoDup_fst_map_to_list _) w) as (w1 & Hrun & Hw1).
  { intros k Hk. apply list_elem_of_fmap in Hk as ([k' c] & -> & Hk).
    apply elem_of_map_to_list in Hk. simpl. eauto. }
  destruct (broadcast_loop_frame ty message _ _ _ _ Hrun) as (Hs & Ht).
  assert (Hmap : clients w1
                 = (fun c => if String.eqb (type c) ty
                             then appended message c else c) <$> clients w).
  { apply map_eq. intros k. rewrite Hw1, lookup_fmap.
    case_decide as Hk; [reflexivity|].
    destruct (clients w !! k) as [c|] eqn:Ec; [|reflexivity].
    destruct Hk. apply list_elem_of_fmap. exists (k, c).
    split; [reflexivity|]. now apply elem_of_map_to_list. }
  unfold send. unfold bind at 1. unfold bind at 1, get at 1.
  cbv beta iota. rewrite Hrun.
  destruct (config.logLevel cfg >=? 2); munfold; eexists;
    (split; [reflexivity|]); simpl; rewrite ?Hs, ?Ht; now repeat split.
Qed.

(** ** sendTask *)

(** A turn of sendTask with nothing to send changes no session: it leaves
    the loop exactly when the session is not registered, and idles when the
    session is registered with an empty queue. *)
Theorem sendTask_nothing_to_send cfg w clientID :
  (clients w !! clientID = None ->
   exists w',
     sendTask_step cfg clientID w = (Return SendTaskExited, w')
     /\ clients w' = clients w /\ tasks w' = tasks w
     /\ stdout w' = if config.logLevel cfg >=? 1
                    then stdout w ++ [LogSendTaskExited clientID]
                    else stdout w) /\
  (forall c, clients w !! clientID = Some c -> outgoing c = [] ->
     sendTask_step cfg clientID w = (Return Idle, w)) /\
  (forall out w', sendTask_step cfg clientID w = (out, w') ->
     out = Return SendTaskExited -> clients w !! clientID = None).
Proof.
  split; [|split].
  - intros Hc. unfold sendTask_step. munfold. rewrite Hc.
    destruct (config.logLevel cfg >=? 1); eexists;
      (split; [reflexivity|]); now repeat split.
  - intros c Hc Hout. unfold sendTask_step. munfold.
    now rewrite Hc, Hc, Hout.
  - intros out w' Hstep ->. unfold sendTask_step, websocket_send in Hstep.
    munfold. destruct (clients w !! clientID) as [c|] eqn:Hc; [|reflexivity].
    rewrite Hc in Hstep.
    destruct (outgoing c); [discriminate|].
    destruct (ws_closed (socket c)); simpl in Hstep; [discriminate|].
    rewrite lookup_insert_eq in Hstep. discriminate.
Qed.

(** When the socket of a registered session is closed, a turn of sendTask
    with a pending message ends with ConnectionClosed, uncaught; the message
    was popped before the send and is lost: it is neither in the queue nor
    on the wire, and the session is still registered. *)
Theorem sendTask_closed_socket cfg w clientID c code message rest :
  clients w !! clientID = Some c ->
  outgoing c = message :: rest ->
  ws_closed (socket c) = Some code ->
  exists w',
    sendTask_step cfg clientID w = (Raise (ConnectionClosed code), w')
    /\ clients w'
       = <[clientID := {| socket := socket c; type := type c;
                          outgoing := rest; incoming := incoming c |}]>
           (clients w)
    /\ stdout w' = stdout w /\ tasks w' = tasks w.
Proof.
  intros Hc Hout Hclosed. unfold sendTask_step, websocket_send. munfold.
  rewrite Hc, Hc, Hout, Hclosed.
  eexists. split; [reflexivity|]. now repeat split.
Qed.

Lemma sendTask_closed_socket_witness :
  let cfg := config.serverSettings ["red"] "dead" in
  let c := {| socket := {| ws_closed := Some 1006; ws_sent := ["a"] |};
              type := "player"; outgoing := ["b"; "c"]; incoming := [] |} in
  let w := {| clients := {[ 0 := c ]}; stdout := []; tasks := [0] |} in
  clients w !! 0 = Some c /\ outgoing c = ["b"; "c"] /\
  ws_closed (socket c) = Some 1006 /\
  exists w',
    sendTask_step cfg 0 w = (Raise (ConnectionClosed 1006), w')
    /\ clients w'
       = <[0 := {| socket := socket c; type := type c;
                   outgoing := ["c"]; incoming := incoming c |}]> (clients w)
    /\ stdout w' = stdout w /\ tasks w' = tasks w.
Proof.
  intros cfg c w. split; [reflexivity|]. split; [reflexivity|].
  split; [reflexivity|].
  apply (sendTask_closed_socket cfg w 0 c 1006 "b" ["c"]); reflexivity.
Defined.

Lemma sendTask_nothing_to_send_witness :
  let cfg := config.serverSettings ["red"] "dead" in
  let w := {| clients := ∅; stdout := []; tasks := [] |} in
  clients w !! 0 = None /\
  exists w',
    sendTask_step cfg 0 w = (Return SendTaskExited, w')
    /\ clients w' = clients w /\ tasks w' = tasks w
    /\ stdout w' = [LogSendTaskExited 0].
Proof.
  intros cfg w. split; [reflexivity|].
  apply (sendTask_nothing_to_send cfg w 0). reflexivity.
Defined.

(** ** The receive loop *)

Lemma recv_message cfg w clientID c message :
  clients w !! clientID = Some c ->
  exists w',
    clientHandler_recv cfg clientID (Return message) w
    = (Return (Receiving clientID), w')
    /\ clients w'
       = <[clientID := {| socket := socket c; type := type c;
                          outgoing := outgoing c;
                          incoming := incoming c ++ [message] |}]> (clients w)
    /\ tasks w' = tasks w.
Proof.
  intros Hc. unfold clientHandler_recv. munfold. rewrite Hc.
  destruct (config.logLevel cfg >=? 2); simpl; rewrite lookup_insert_eq;
    eexists; (split; [reflexivity|]); now split.
Qed.

(** Messages received for a registered session are appended to its incoming
    queue in the order of arrival, whatever their number; its outgoing queue
    and socket are not touched, and the loop keeps waiting. *)
Theorem incoming_fifo cfg clientID messages :
  forall w c,
    clients w !! clientID = Some c ->
    clients (run cfg (map (fun m => ARecv clientID (Return m)) messages) w)
      !! clientID
    = Some {| socket := socket c; type := type c; outgoing := outgoing c;
              incoming := incoming c ++ messages |}.
Proof.
  induction messages as [|m messages IH]; intros w c Hc.
  - simpl. rewrite app_nil_r, Hc. now destruct c.
  - destruct (recv_message cfg w clientID c m Hc) as (w' & Hrecv & Hw' & _).
    simpl. unfold exec. rewrite Hrecv. simpl.
    erewrite IH; [|rewrite Hw'; apply lookup_insert_eq].
    simpl. now rewrite <- app_assoc.
Qed.

Lemma incoming_fifo_witness :
  let cfg := config.serverSettings ["red"] "dead" in
  let c := {| socket := {| ws_closed := None; ws_sent := [] |};
              type := "player"; outgoing := ["state"]; incoming := ["go"] |} in
  let w := {| clients := {[ 0 := c ]}; stdout := []; tasks := [0] |} in
  clients w !! 0 = Some c /\
  clients (run cfg (map (fun m => ARecv 0 (Return m)) ["left"; "fire"]) w) !! 0
  = Some {| socket := socket c; type := type c; outgoing := outgoing c;
            incoming := ["go"; "left"; "fire"] |}.
Proof.
  intros cfg c w. split; [reflexivity|].
  apply (incoming_fifo cfg 0 ["left"; "fire"] w c). reflexivity.
Defined.

(** A message arriving for a session that is no longer registered makes
    the handler end with KeyError: the except clause does not catch it, and
    nothing is changed or logged. *)
Theorem recv_message_unregistered cfg w clientID message :
  clients w !! clientID = None ->
  clientHandler_recv cfg clientID (Return message) w = (Raise KeyError, w).
Proof.
  intros Hc. unfold clientHandler_recv. munfold. now rewrite Hc.
Qed.

Lemma recv_message_unregistered_witness :
  let cfg := config.serverSettings ["red"] "dead" in
  let w := {| clients := ∅; stdout := []; tasks := [0] |} in
  clients w !! 0 = None /\
  clientHandler_recv cfg 0 (Return "fire") w = (Raise KeyError, w).
Proof.
  intros cfg w. split; [reflexivity|].
  apply (recv_message_unregistered cfg w 0 "fire"). reflexivity.
Defined.

(** ** Admission: edge cases *)

Lemma clientHandler_connect_player cfg ws draws w :
  config.path_viewer (config.apiPaths cfg)
    <> config.path_player (config.apiPaths cfg) ->
  clientHandler_connect cfg ws (config.path_player (config.apiPaths cfg))
    draws w
  = clientHandler_register cfg ws (config.path_player (config.apiPaths cfg))
      (config.type_player (config.clientTypes cfg)) draws w.
Proof.
  intros Hpaths. unfold clientHandler_connect.
  replace (String.eqb (config.path_player (config.apiPaths cfg))
             (config.path_viewer (config.apiPaths cfg))) with false
    by (symmetry; apply String.eqb_neq; congruence).
  now rewrite String.eqb_refl.
Qed.

(** With an empty table of tank names, a connection on the player path
    ends with ValueError at its first draw (randint(0, -1)); no session is
    registered and no sendTask is created. *)
Theorem connect_player_no_names cfg ws r draws w :
  config.path_viewer (config.apiPaths cfg)
    <> config.path_player (config.apiPaths cfg) ->
  config.tankNames cfg = [] ->
  clientHandler_connect cfg ws (config.path_player (config.apiPaths cfg))
    (r :: draws) w
  = (Raise ValueError, w).
Proof.
  intros Hpaths Hnames. rewrite clientHandler_connect_player by exact Hpaths.
  unfold clientHandler_register. simpl.
  rewrite String.eqb_refl, Hnames. reflexivity.
Qed.

Lemma connect_player_no_names_witness :
  let cfg := config.serverSettings [] "dead" in
  let ws := {| ws_closed := None; ws_sent := [] |} in
  let w := {| clients := ∅; stdout := []; tasks := [] |} in
  config.path_viewer (config.apiPaths cfg)
    <> config.path_player (config.apiPaths cfg) /\
  config.tankNames cfg = [] /\
  clientHandler_connect cfg ws "/pyTanksAPI/player" [5; 6] w
  = (Raise ValueError, w).
Proof.
  intros cfg ws w. split; [discriminate|]. split; [reflexivity|].
  apply (connect_player_no_names cfg ws 5 [6] w); [discriminate|reflexivity].
Defined.

Lemma generate_clientID_exhausted cfg draws w :
  (forall i, 0 <= i < Z.of_nat (length (config.tankNames cfg)) ->
             is_Some (clients w !! i)) ->
  0 < Z.of_nat (length (config.tankNames cfg)) ->
  generate_clientID cfg (config.type_player (config.clientTypes cfg)) draws w
  = (Return None, w).
Proof.
  intros Hfull Hsome. induction draws as [|r draws IH]; [reflexivity|].
  simpl. rewrite String.eqb_refl.
  destruct (randint_in_range 0
              (Z.of_nat (length (config.tankNames cfg)) - 1) r w
              ltac:(lia)) as (i & Hi & Hrange).
  rewrite (bind_Return _ _ _ _ _ Hi). munfold.
  destruct (Hfull i ltac:(lia)) as (c & Hc). rewrite Hc. exact IH.
Qed.

(** When every identity of the player namespace is taken, a connection on
    the player path never gets out of its draw loop: whatever the draws, and
    however many, it is still generating, and nothing is registered,
    created or logged. *)
Theorem connect_player_exhausted cfg ws draws w :
  config.path_viewer (config.apiPaths cfg)
    <> config.path_player (config.apiPaths cfg) ->
  0 < Z.of_nat (length (config.tankNames cfg)) ->
  (forall i, 0 <= i < Z.of_nat (length (config.tankNames cfg)) ->
             is_Some (clients w !! i)) ->
  clientHandler_connect cfg ws (config.path_player (config.apiPaths cfg))
    draws w
  = (Return Generating, w).
Proof.
  intros Hpaths Hsome Hfull.
  rewrite clientHandler_connect_player by exact Hpaths.
  unfold clientHandler_register.
  now rewrite (bind_Return _ _ _ _ _
                 (generate_clientID_exhausted cfg draws w Hfull Hsome)).
Qed.

Lemma connect_player_exhausted_witness :
  let cfg := config.serverSettings ["red"; "blue"] "dead" in
  let ws := {| ws_closed := None; ws_sent := [] |} in
  let w := {| clients := {[ 0 := client_init ws "player";
                            1 := client_init ws "player" ]};
              stdout := []; tasks := [0; 1] |} in
  config.path_viewer (config.apiPaths cfg)
    <> config.path_player (config.apiPaths cfg) /\
  0 < Z.of_nat (length (config.tankNames cfg)) /\
  (forall i, 0 <= i < Z.of_nat (length (config.tankNames cfg)) ->
             is_Some (clients w !! i)) /\
  clientHandler_connect cfg ws "/pyTanksAPI/player" [7; 8; 9; 10] w
  = (Return Generating, w).
Proof.
  intros cfg ws w.
  assert (Hfull : forall i,
            0 <= i < Z.of_nat (length (config.tankNames cfg)) ->
            is_Some (clients w !! i)).
  { intros i Hi. simpl in Hi.
    assert (i = 0 \/ i = 1) as [-> | ->] by lia; eexists; reflexivity. }
  split; [discriminate|]. split; [simpl; lia|]. split; [exact Hfull|].
  apply (connect_player_exhausted cfg ws [7; 8; 9; 10] w);
    [discriminate | simpl; lia | exact Hfull].
Defined.

Lemma clientHandler_connect_receiving cfg ws path draws w clientID w' :
  clientHandler_connect cfg ws path draws w = (Return (Receiving clientID), w') ->
  clients w !! clientID = None
  /\ exists ty, clients w' = <[clientID := client_init ws ty]> (clients w).
Proof.
  unfold clientHandler_connect. intros H.
  destruct (String.eqb path _).
  { apply clientHandler_register_spec in H as (Hfree & Hc & _). eauto. }
  destruct (String.eqb path _).
  { apply clientHandler_register_spec in H as (Hfree & Hc & _). eauto. }
  unfold websocket_send in H. munfold.
  destruct (config.logLevel cfg >=? 1), (ws_closed ws); discriminate.
Qed.

(** A session that is admitted and whose connection then closes leaves the
    registry exactly as it was before the admission: its identity is free
    again, and no other session was touched. *)
Theorem connect_then_close cfg ws path draws w clientID w' code :
  clientHandler_connect cfg ws path draws w = (Return (Receiving clientID), w') ->
  exists w'',
    clientHandler_recv cfg clientID (Raise (ConnectionClosed code)) w'
    = (Return (Finished clientID), w'')
    /\ clients w'' = clients w.
Proof.
  intros Hconn.
  destruct (clientHandler_connect_receiving cfg ws path draws w clientID w' Hconn)
    as (Hfree & ty & Hw').
  destruct (recv_ConnectionClosed cfg w' clientID (client_init ws ty) code)
    as (w'' & Hrecv & Hw'' & _).
  { rewrite Hw'. apply lookup_insert_eq. }
  exists w''. split; [exact Hrecv|].
  rewrite Hw'', Hw'. now apply delete_insert_id.
Qed.

Lemma connect_then_close_witness :
  let cfg := config.serverSettings ["red"; "green"; "blue"] "dead" in
  let ws := {| ws_closed := None; ws_sent := [] |} in
  let w := {| clients := {[ 1 := client_init ws "player" ]};
              stdout := []; tasks := [1] |} in
  let w' := snd (clientHandler_connect cfg ws "/pyTanksAPI/player" [4; 5] w) in
  clientHandler_connect cfg ws "/pyTanksAPI/player" [4; 5] w
  = (Return (Receiving 2), w') /\
  exists w'',
    clientHandler_recv cfg 2 (Raise (ConnectionClosed 1000)) w'
    = (Return (Finished 2), w'')
    /\ clients w'' = clients w.
Proof.
  intros cfg ws w w'. split; [reflexivity|].
  apply (connect_then_close cfg ws "/pyTanksAPI/player" [4; 5] w 2 w' 1000).
  reflexivity.
Defined.

(** ** timeDelta *)

Lemma timeDelta_value clock aTime r :
  exists q,
    timeDelta clock aTime r
    = (Return q, {| reads := S (reads r); trace := trace r |})
    /\ (q == inject_Z ((clock (reads r) - aTime) mod 86400000000) / 1000000)%Q.
Proof.
  unfold timeDelta, now. munfold. eexists. split; [reflexivity|].
  set (d := clock (reads r) - aTime).
  assert (Hmod : d mod 1000000 = (d mod 86400000000) mod 1000000).
  { pose proof (Z.div_mod d 86400000000 ltac:(lia)) as Hd.
    replace (d mod 1000000)
      with ((d mod 86400000000 + d / 86400000000 * 86400 * 1000000)
            mod 1000000) by (f_equal; lia).
    apply Z.mod_add. lia. }
  rewrite Hmod.
  rewrite (Z.div_mod (d mod 86400000000) 1000000) at 3 by lia.
  rewrite inject_Z_plus, inject_Z_mult. field.
Qed.

(** When the clock has moved forward by less than a day since [aTime],
    timeDelta is the elapsed time in seconds. *)
Theorem timeDelta_exact clock aTime r :
  0 <= clock (reads r) - aTime < 86400000000 ->
  exists q,
    timeDelta clock aTime r
    = (Return q, {| reads := S (reads r); trace := trace r |})
    /\ (q == inject_Z (clock (reads r) - aTime) / 1000000)%Q.
Proof.
  intros H. destruct (timeDelta_value clock aTime r) as (q & Hq & Hv).
  exists q. split; [exact Hq|]. now rewrite Z.mod_small in Hv.
Qed.

Lemma timeDelta_exact_witness :
  let clock := fun i : nat => 1000000 + 16667 * Z.of_nat i in
  let r := {| reads := 3; trace := [] |} in
  0 <= clock (reads r) - 1000000 < 86400000000 /\
  exists q,
    timeDelta clock 1000000 r = (Return q, {| reads := 4; trace := [] |})
    /\ (q == inject_Z (clock (reads r) - 1000000) / 1000000)%Q.
Proof.
  intros clock r. split; [subst clock r; simpl; lia|].
  apply (timeDelta_exact clock 1000000 r).
  subst clock r. simpl. lia.
Defined.

(** timeDelta reads only the seconds and microseconds of the difference:
    its value always lies in [0, 86400), and whole days of difference, in
    either direction, do not show in it; in particular a clock that went
    backwards gives a positive delta, not a negative one. *)
Theorem timeDelta_wraps clock aTime r days :
  (exists q,
     timeDelta clock aTime r
     = (Return q, {| reads := S (reads r); trace := trace r |})
     /\ (0 <= q)%Q /\ (q < 86400)%Q) /\
  timeDelta clock (aTime + days * 86400000000) r = timeDelta clock aTime r.
Proof.
  split.
  - destruct (timeDelta_value clock aTime r) as (q & Hq & Hv).
    exists q. split; [exact Hq|].
    pose proof (Z.mod_pos_bound (clock (reads r) - aTime) 86400000000
                  ltac:(lia)) as Hb.
    rewrite Hv. split.
    + apply Qle_shift_div_l; [reflexivity|]. rewrite Qmult_0_l.
      unfold Qle. simpl. lia.
    + apply Qlt_shift_div_r; [reflexivity|].
      unfold Qlt. simpl. lia.
  - unfold timeDelta, now. munfold.
    set (t := clock (reads r)).
    replace (t - (aTime + days * 86400000000))
      with (t - aTime + (- days) * 86400000000) by lia.
    rewrite Z.mod_add by lia.
    replace ((t - aTime + - days * 86400000000) mod 1000000)
      with ((t - aTime) mod 1000000); [reflexivity|].
    replace (t - aTime + - days * 86400000000)
      with (t - aTime + (- days * 86400) * 1000000) by lia.
    now rewrite Z.mod_add by lia.
Qed.

(** ** frameLoop: the effects of an iteration *)

Lemma frames_app t1 t2 : frames (t1 ++ t2) = frames t1 ++ frames t2.
Proof.
  induction t1 as [|e t1 IH]; [reflexivity|].
  destruct e; simpl; now rewrite IH.
Qed.

Lemma prints_app t1 t2 : prints (t1 ++ t2) = prints t1 ++ prints t2.
Proof.
  induction t1 as [|e t1 IH]; [reflexivity|].
  destruct e; simpl; now rewrite IH.
Qed.

Lemma push_delta_drop fs d n :
  length fs = n ->
  push_delta (drop (n - 15) fs) d = drop (S n - 15) (fs ++ [d]).
Proof.
  intros Hlen. unfold push_delta.
  destruct (le_lt_dec 15 n) as [Hbig|Hsmall].
  - assert (Hw : length (drop (n - 15) fs) = 15%nat)
      by (rewrite length_drop; lia).
    rewrite length_app, Hw.
    replace (S n - 15)%nat with (n - 15 + 1)%nat by lia.
    rewrite drop_app_le by lia.
    rewrite <- drop_drop. simpl.
    destruct (drop (n - 15) fs) as [|a win]; [discriminate|].
    reflexivity.
  - replace (n - 15)%nat with O by lia.
    replace (S n - 15)%nat with O by lia.
    rewrite !drop_0, length_app. simpl.
    destruct (15 <? Z.of_nat (length fs + 1)) eqn:E; [|reflexivity].
    apply Z.ltb_lt in E. lia.
Qed.

Section FrameLoopEffects.

Variable cfg : config.serverSettingsT.
Variable clock : nat -> Z.

Hypothesis ups_nonzero : config.updatesPerSecond cfg <> 0.

Lemma log_fps_effects frameCount0 lastFSPLog0 r :
  exists out r' pre,
    log_fps cfg clock frameCount0 lastFSPLog0 r = (Return out, r')
    /\ trace r' = trace r ++ pre
    /\ (pre = [] \/ exists q, pre = [PrintFPS q])
    /\ (config.logLevel cfg < 1 ->
        pre = [] /\ r' = r /\ out = (frameCount0, lastFSPLog0)).
Proof.
  unfold log_fps. destruct (config.logLevel cfg >=? 1) eqn:Elog.
  - apply Z.geb_le in Elog.
    destruct (timeDelta_spec clock lastFSPLog0 r) as (q & Hq & _).
    rewrite (bind_Return _ _ _ _ _ Hq).
    destruct (Qge_bool q 5).
    + rewrite (bind_Return _ _ _ _ _ (truediv_ok _ 5 _ ltac:(discriminate))).
      unfold emit, now. munfold. simpl.
      do 2 eexists. eexists [PrintFPS _].
      split; [reflexivity|]. split; [reflexivity|].
      split; [right; eauto | lia].
    + do 2 eexists. exists []. split; [reflexivity|]. simpl.
      rewrite app_nil_r. split; [reflexivity|]. split; [now left | lia].
  - do 2 eexists. exists []. split; [reflexivity|].
    rewrite app_nil_r. split; [reflexivity|]. split; [now left|].
    intros _. now repeat split.
Qed.

Lemma run_update_effects timeSinceLastUpdate0 frameDelta r :
  exists q r' upd,
    run_update cfg timeSinceLastUpdate0 frameDelta r = (Return q, r')
    /\ trace r' = trace r ++ upd
    /\ reads r' = reads r
    /\ (upd = [] \/ upd = [CallUpdate]).
Proof.
  unfold run_update.
  rewrite (bind_Return _ _ _ _ _
             (truediv_ok 1 _ r (updatesPerSecond_nonzero cfg ups_nonzero))).
  destruct (Qge_bool _ _).
  - unfold emit. munfold. do 2 eexists. exists [CallUpdate].
    split; [reflexivity|]. simpl. split; [reflexivity|].
    split; [reflexivity | now right].
  - do 2 eexists. exists []. split; [reflexivity|].
    rewrite app_nil_r. split; [reflexivity|]. split; [reflexivity | now left].
Qed.

Lemma frameLoop_tick_effects v d r :
  exists v' r' pre upd,
    frameLoop_tick cfg clock v d r = (Return v', r')
    /\ trace r' = trace r ++ pre ++ [CallFrame d] ++ upd ++ [Sleep (delay v')]
    /\ (pre = [] \/ exists q, pre = [PrintFPS q])
    /\ (upd = [] \/ upd = [CallUpdate])
    /\ deltas v' = push_delta (deltas v) d
    /\ (config.logLevel cfg < 1 ->
        pre = [] /\ reads r' = reads r /\ frameCount v' = frameCount v).
Proof.
  unfold frameLoop_tick.
  destruct (adjust_delay_spec cfg (delay v) (baseDelay v)
              (push_delta (deltas v) d) r (push_delta_nonempty _ _))
    as (q & Hq & _).
  rewrite (bind_Return _ _ _ _ _ Hq).
  destruct (log_fps_effects (frameCount v) (lastFSPLog v) r)
    as (out & r1 & pre & Hlog & Htr1 & Hpre & Hquiet).
  rewrite (bind_Return _ _ _ _ _ Hlog).
  unfold emit at 1. unfold bind at 1, modify at 1. cbv beta iota.
  set (r2 := {| reads := reads r1; trace := trace r1 ++ [CallFrame d] |}).
  destruct (run_update_effects (timeSinceLastUpdate v) d r2)
    as (t & r3 & upd & Hupd & Htr3 & Hrd3 & Hshape).
  rewrite (bind_Return _ _ _ _ _ Hupd).
  unfold emit, bind, modify, ret. cbv beta iota.
  do 2 eexists. exists pre, upd. split; [reflexivity|]. simpl.
  split; [rewrite Htr3; unfold r2; simpl; rewrite Htr1;
          now rewrite <- !app_assoc|].
  split; [exact Hpre|]. split; [exact Hshape|]. split; [reflexivity|].
  intros Hlvl. destruct (Hquiet Hlvl) as (-> & -> & ->).
  rewrite Hrd3. now repeat split.
Qed.

End FrameLoopEffects.

(** An iteration of the loop does, in this order: at most one print of the
    frame rate, exactly one call of frameCallback with the frame delta it
    measured, at most one call of updateCallback, and exactly one sleep, of
    the new delay. *)
Theorem frameLoop_body_effects cfg clock v r :
  config.updatesPerSecond cfg <> 0 ->
  exists frameDelta r1 v' r' pre upd,
    timeDelta clock (lastFrameTime v) r = (Return frameDelta, r1)
    /\ frameLoop_body cfg clock v r = (Return v', r')
    /\ trace r' = trace r ++ pre ++ [CallFrame frameDelta] ++ upd
                  ++ [Sleep (delay v')]
    /\ (pre = [] \/ exists q, pre = [PrintFPS q])
    /\ (upd = [] \/ upd = [CallUpdate]).
Proof.
  intros Hups.
  destruct (frameLoop_body_spec cfg clock v r) as (d & r1 & t & Hd & _ & Hbody).
  match type of Hbody with
  | _ = frameLoop_tick _ _ ?v0 _ ?r0 =>
      destruct (frameLoop_tick_effects cfg clock Hups v0 d r0)
        as (v' & r' & pre & upd & Htick & Htr & Hpre & Hupd & _)
  end.
  exists d, r1, v', r', pre, upd. rewrite Hbody.
  now repeat split.
Qed.

Lemma frameLoop_body_effects_witness :
  let cfg := config.serverSettings [] "dead" in
  let clock := fun i : nat => 16667 * Z.of_nat i in
  let v := {| lastFrameTime := 0; baseDelay := 1 / 60; delay := 1 / 60;
              deltas := []; timeSinceLastUpdate := 0;
              lastFSPLog := 0; frameCount := 0 |} in
  config.updatesPerSecond cfg <> 0 /\
  exists frameDelta r1 v' r' pre upd,
    timeDelta clock (lastFrameTime v) start = (Return frameDelta, r1)
    /\ frameLoop_body cfg clock v start = (Return v', r')
    /\ trace r' = trace start ++ pre ++ [CallFrame frameDelta] ++ upd
                  ++ [Sleep (delay v')]
    /\ (pre = [] \/ exists q, pre = [PrintFPS q])
    /\ (upd = [] \/ upd = [CallUpdate]).
Proof.
  intros cfg clock v. split; [simpl; lia|].
  apply (frameLoop_body_effects cfg clock v start). simpl. lia.
Defined.

(** ** frameLoop: what its trace and window hold after [n] iterations *)

Lemma frameLoop_trace_spec cfg clock n :
  config.framesPerSecond cfg <> 0 ->
  config.updatesPerSecond cfg <> 0 ->
  exists v r,
    frameLoop cfg clock n start = (Return v, r)
    /\ length (frames (trace r)) = n
    /\ Forall (fun d => (0 <= d)%Q) (frames (trace r))
    /\ deltas v = drop (n - 15) (frames (trace r))
    /\ (updates (trace r) <= n)%nat
    /\ (config.logLevel cfg < 1 ->
        prints (trace r) = [] /\ reads r = (2 + 2 * n)%nat
        /\ frameCount v = 0).
Proof.
  intros Hfps Hups. induction n as [|n IH].
  - destruct (frameLoop_init_spec cfg clock Hfps Hups start)
      as (t0 & t1 & Hinit).
    do 2 eexists. split.
    + unfold frameLoop. rewrite (bind_Return _ _ _ _ _ Hinit). reflexivity.
    + simpl. repeat split; try reflexivity; constructor.
  - destruct IH as (v & r & Hrun & Hlen & Hpos & Hwin & Hupd & Hquiet).
    destruct (frameLoop_body_spec cfg clock v r)
      as (d & r1 & t & _ & Hd & Hbody).
    match type of Hbody with
    | _ = frameLoop_tick _ _ ?v0 _ ?r0 =>
        destruct (frameLoop_tick_effects cfg clock Hups v0 d r0)
          as (v' & r' & pre & upd & Htick & Htr & Hpre & Hshape & Hd' & Hq')
    end.
    simpl in *.
    assert (Hfr : frames (trace r') = frames (trace r) ++ [d]).
    { rewrite Htr, !frames_app.
      destruct Hpre as [-> | (q & ->)], Hshape as [-> | ->]; reflexivity. }
    assert (Hup : (updates (trace r') <= S (updates (trace r)))%nat).
    { rewrite Htr, !updates_app.
      destruct Hpre as [-> | (q & ->)], Hshape as [-> | ->]; simpl; lia. }
    exists v', r'. split.
    + rewrite frameLoop_succ, (bind_Return _ _ _ _ _ Hrun), Hbody. exact Htick.
    + split; [rewrite Hfr, length_app; simpl; lia|].
      split; [rewrite Hfr; apply Forall_app; split;
              [exact Hpos | repeat constructor; exact Hd]|].
      split; [rewrite Hd', Hwin, Hfr; now apply push_delta_drop|].
      split; [lia|].
      intros Hlvl. destruct (Hquiet Hlvl) as (Hp & Hr & Hc).
      destruct (Hq' Hlvl) as (-> & Hr' & Hc').
      rewrite Htr, !prints_app, Hp.
      split; [now destruct Hshape as [-> | ->]|].
      split; [lia | congruence].
Qed.

(** After [n] iterations frameCallback has been called exactly [n] times,
    never with a negative frame delta, and updateCallback at most [n]
    times. *)
Theorem frame_callbacks cfg clock n :
  config.framesPerSecond cfg <> 0 ->
  config.updatesPerSecond cfg <> 0 ->
  exists v r,
    frameLoop cfg clock n start = (Return v, r)
    /\ length (frames (trace r)) = n
    /\ Forall (fun frameDelta => (0 <= frameDelta)%Q) (frames (trace r))
    /\ (updates (trace r) <= n)%nat.
Proof.
  intros Hfps Hups.
  destruct (frameLoop_trace_spec cfg clock n Hfps Hups)
    as (v & r & Hrun & Hlen & Hpos & _ & Hupd & _).
  now exists v, r.
Qed.

Lemma frame_callbacks_witness :
  let cfg := config.serverSettings [] "dead" in
  let clock := fun i : nat => 16667 * Z.of_nat i in
  config.framesPerSecond cfg <> 0 /\
  config.updatesPerSecond cfg <> 0 /\
  exists v r,
    frameLoop cfg clock 20 start = (Return v, r)
    /\ length (frames (trace r)) = 20%nat
    /\ Forall (fun frameDelta => (0 <= frameDelta)%Q) (frames (trace r))
    /\ (updates (trace r) <= 20)%nat.
Proof.
  intros cfg clock. split; [simpl; lia|]. split; [simpl; lia|].
  apply (frame_callbacks cfg clock 20); simpl; lia.
Defined.

(** The window [deltas] holds, in order, the frame deltas of the last 15
    iterations (of all of them while there are fewer): exactly the last
    arguments given to frameCallback. *)
Theorem rolling_window cfg clock n :
  config.framesPerSecond cfg <> 0 ->
  config.updatesPerSecond cfg <> 0 ->
  exists v r,
    frameLoop cfg clock n start = (Return v, r)
    /\ length (frames (trace r)) = n
    /\ deltas v = drop (n - 15) (frames (trace r))
    /\ length (deltas v) = Nat.min n 15.
Proof.
  intros Hfps Hups.
  destruct (frameLoop_trace_spec cfg clock n Hfps Hups)
    as (v & r & Hrun & Hlen & _ & Hwin & _).
  exists v, r. split; [exact Hrun|]. split; [exact Hlen|].
  split; [exact Hwin|]. rewrite Hwin, length_drop. lia.
Qed.

Lemma rolling_window_witness :
  let cfg := config.serverSettings [] "dead" in
  let clock := fun i : nat => 16667 * Z.of_nat i in
  config.framesPerSecond cfg <> 0 /\
  config.updatesPerSecond cfg <> 0 /\
  exists v r,
    frameLoop cfg clock 17 start = (Return v, r)
    /\ length (frames (trace r)) = 17%nat
    /\ deltas v = drop 2 (frames (trace r))
    /\ length (deltas v) = 15%nat.
Proof.
  intros cfg clock. split; [simpl; lia|]. split; [simpl; lia|].
  apply (rolling_window cfg clock 17); simpl; lia.
Defined.

(** With logLevel below 1 the loop never prints a frame rate, leaves
    frameCount at 0, and reads the clock exactly twice per iteration (and
    twice before the loop). *)
Theorem silent_logging cfg clock n :
  config.framesPerSecond cfg <> 0 ->
  config.updatesPerSecond cfg <> 0 ->
  config.logLevel cfg < 1 ->
  exists v r,
    frameLoop cfg clock n start = (Return v, r)
    /\ prints (trace r) = []
    /\ frameCount v = 0
    /\ reads r = (2 + 2 * n)%nat.
Proof.
  intros Hfps Hups Hlvl.
  destruct (frameLoop_trace_spec cfg clock n Hfps Hups)
    as (v & r & Hrun & _ & _ & _ & _ & Hquiet).
  destruct (Hquiet Hlvl) as (Hp & Hr & Hc).
  now exists v, r.
Qed.

Lemma silent_logging_witness :
  let cfg := {| config.ip := "127.0.0.1"; config.port := 5678;
                config.framesPerSecond := 60; config.updatesPerSecond := 15;
                config.logLevel := 0;
                config.apiPaths := {| config.path_viewer := "/pyTanksAPI/viewer";
                                      config.path_player := "/pyTanksAPI/player" |};
                config.clientTypes := {| config.type_viewer := "viewer";
                                         config.type_player := "player" |};
                config.tankNames := []; config.tankStatus_dead := "dead" |} in
  let clock := fun i : nat => 3000000 * Z.of_nat i in
  config.framesPerSecond cfg <> 0 /\
  config.updatesPerSecond cfg <> 0 /\
  config.logLevel cfg < 1 /\
  exists v r,
    frameLoop cfg clock 5 start = (Return v, r)
    /\ prints (trace r) = []
    /\ frameCount v = 0
    /\ reads r = 12%nat.
Proof.
  intros cfg clock. split; [simpl; lia|]. split; [simpl; lia|].
  split; [simpl; lia|].
  apply (silent_logging cfg clock 5); simpl; lia.
Defined.

(** With a frame rate or an update rate of zero, frameLoop ends with
    ZeroDivisionError before its loop: no callback is called and nothing
    sleeps. *)
Theorem frameLoop_zero_rate cfg clock n :
  config.framesPerSecond cfg = 0 \/ config.updatesPerSecond cfg = 0 ->
  exists r,
    frameLoop cfg clock n start = (Raise ZeroDivisionError, r)
    /\ trace r = [].
Proof.
  intros Hzero. unfold frameLoop.
  assert (Hinit : exists r,
            frameLoop_init cfg clock start = (Raise ZeroDivisionError, r)
            /\ trace r = []).
  { unfold frameLoop_init, now. unfold bind at 1. cbv beta iota.
    unfold truediv at 1.
    destruct (Qeq_bool (framesPerSecond cfg) 0) eqn:Efps.
    - eexists. split; [reflexivity|reflexivity].
    - unfold bind at 1, ret at 1. cbv beta iota.
      unfold truediv at 1.
      destruct (Qeq_bool (updatesPerSecond cfg) 0) eqn:Eups.
      + eexists. split; [reflexivity|reflexivity].
      + apply Qeq_bool_neq in Efps. apply Qeq_bool_neq in Eups.
        destruct Hzero as [H|H].
        * destruct Efps. unfold framesPerSecond. now rewrite H.
        * destruct Eups. unfold updatesPerSecond. now rewrite H. }
  destruct Hinit as (r & Hinit & Htr).
  exists r. split; [|exact Htr]. now apply bind_Raise.
Qed.

Lemma frameLoop_zero_rate_witness :
  let cfg := {| config.ip := "127.0.0.1"; config.port := 5678;
                config.framesPerSecond := 60; config.updatesPerSecond := 0;
                config.logLevel := 1;
                config.apiPaths := {| config.path_viewer := "/pyTanksAPI/viewer";
                                      config.path_player := "/pyTanksAPI/player" |};
                config.clientTypes := {| config.type_viewer := "viewer";
                                         config.type_player := "player" |};
                config.tankNames := []; config.tankStatus_dead := "dead" |} in
  let clock := fun i : nat => 16667 * Z.of_nat i in
  (config.framesPerSecond cfg = 0 \/ config.updatesPerSecond cfg = 0) /\
  exists r,
    frameLoop cfg clock 3 start = (Raise ZeroDivisionError, r)
    /\ trace r = [].
Proof.
  intros cfg clock. split; [right; reflexivity|].
  apply (frameLoop_zero_rate cfg clock 3). right. reflexivity.
Defined.

(** ** tank *)

(** The clean snapshot is the unclean one without "kills" and "wins";
    both carry the current position, heading, moving flag and status of
    the tank, under the names of the attributes. *)
Theorem toDict_clean_of_unclean (self : gameClasses.tank) :
  exists d : gmap string gameClasses.pyval,
    gameClasses.toDict self false = Return d
    /\ gameClasses.toDict self true = Return (delete "wins" (delete "kills" d))
    /\ forall doClean, exists d' : gmap string gameClasses.pyval,
         gameClasses.toDict self doClean = Return d'
         /\ d' !! "x" = Some (gameClasses.PyNum (gameClasses.x self))
         /\ d' !! "y" = Some (gameClasses.PyNum (gameClasses.y self))
         /\ d' !! "heading"
            = Some (gameClasses.PyNum (gameClasses.heading self))
         /\ d' !! "moving"
            = Some (gameClasses.PyBool (gameClasses.moving self))
         /\ d' !! "status"
            = Some (gameClasses.PyStr (gameClasses.status self)).
Proof.
  eexists. split; [reflexivity|]. split; [reflexivity|].
  intros [|]; eexists; (split; [reflexivity|]); now repeat split.
Qed.

(** The time of the last shot never shows in a snapshot: shooting changes
    neither the clean nor the unclean snapshot of a tank. *)
Theorem toDict_hides_shot (self : gameClasses.tank) now doClean :
  gameClasses.toDict (gameClasses.didShoot now self) doClean
  = gameClasses.toDict self doClean.
Proof.
  destruct doClean; reflexivity.
Qed.

(** A new tank can shoot at once (its last shot is dated one reload time
    back); a tank that has just shot can shoot again exactly when the reload
    time less the 0.2 s margin has passed since the shot. *)
Theorem reload_cycle cfg reloadTime :
  (forall t0 t x0 y0 heading0,
      t0 <= t ->
      gameClasses.canShoot reloadTime t
        (gameClasses.tank_init cfg reloadTime t0 x0 y0 heading0) = true) /\
  (forall self t t',
      gameClasses.canShoot reloadTime t' (gameClasses.didShoot t self) = true
      <-> reloadTime - 200000 <= t' - t) /\
  (forall self t,
      200000 < reloadTime ->
      gameClasses.canShoot reloadTime t (gameClasses.didShoot t self) = false).
Proof.
  unfold gameClasses.canShoot. simpl. repeat split.
  - intros. apply Z.leb_le. lia.
  - apply Z.leb_le.
  - apply Z.leb_le.
  - intros. apply Z.leb_gt. lia.
Qed.

Lemma reload_cycle_witness :
  let cfg := config.serverSettings ["red"] "dead" in
  let self := gameClasses.tank_init cfg 2000000 5000000 10 20 0 in
  5000000 <= 5000001 /\ 200000 < 2000000 /\
  gameClasses.canShoot 2000000 5000001 self = true /\
  gameClasses.canShoot 2000000 5000001 (gameClasses.didShoot 5000001 self)
  = false.
Proof.
  intros cfg self.
  destruct (reload_cycle cfg 2000000) as (Hnew & _ & Hshot).
  split; [lia|]. split; [lia|]. split.
  - apply (Hnew 5000000 5000001 10%Q 20%Q 0%Q). lia.
  - apply (Hshot self 5000001). lia.
Defined.

(** ** What a schedule keeps *)

Lemma sendTask_step_clients cfg i w :
  clients (exec (sendTask_step cfg i) w) = clients w
  \/ exists c c',
       clients w !! i = Some c
       /\ type c' = type c
       /\ clients (exec (sendTask_step cfg i) w) = <[i := c']> (clients w).
Proof.
  unfold sendTask_step, websocket_send. munfold.
  destruct (clients w !! i) as [c|] eqn:Ei.
  - rewrite Ei. destruct (outgoing c) as [|message rest]; [now left|].
    right. exists c.
    destruct (ws_closed (socket c)); simpl.
    + eexists. split; [reflexivity|]. split; [|reflexivity]. reflexivity.
    + rewrite lookup_insert_eq. simpl.
      eexists. split; [reflexivity|]. split; [|apply insert_insert_eq].
      reflexivity.
  - left. now destruct (config.logLevel cfg >=? 1).
Qed.

(** Neither send nor a turn of sendTask ever registers or removes a
    session: the set of registered identities is the same before and
    after, whatever the recipient and whether or not the call raises. *)
Theorem send_and_sendTask_keep_sessions cfg w :
  (forall recipient message,
      dom (clients (exec (send cfg recipient message) w)) = dom (clients w)) /\
  (forall clientID,
      dom (clients (exec (sendTask_step cfg clientID) w)) = dom (clients w)).
Proof.
  split.
  - intros [i|ty] message; apply set_eq; intros k; rewrite !elem_of_dom.
    + rewrite send_one_entry. case_decide; [|reflexivity].
      now rewrite fmap_is_Some.
    + rewrite send_type_entry. now rewrite fmap_is_Some.
  - intros i.
    destruct (sendTask_step_clients cfg i w) as [-> | (c & c' & Hc & _ & ->)];
      [reflexivity|].
    apply dom_insert_lookup_L. eauto.
Qed.

(** Two connections admitted one after the other get different
    identities, and both sessions are registered afterwards. *)
Theorem successive_admissions_distinct
    cfg ws1 path1 draws1 ws2 path2 draws2 w w1 w2 id1 id2 :
  clientHandler_connect cfg ws1 path1 draws1 w = (Return (Receiving id1), w1) ->
  clientHandler_connect cfg ws2 path2 draws2 w1 = (Return (Receiving id2), w2) ->
  id1 <> id2
  /\ is_Some (clients w2 !! id1) /\ is_Some (clients w2 !! id2).
Proof.
  intros H1 H2.
  apply clientHandler_connect_receiving in H1 as (_ & ty1 & Hw1).
  apply clientHandler_connect_receiving in H2 as (Hfree2 & ty2 & Hw2).
  assert (Hne : id1 <> id2).
  { intros ->. rewrite Hw1, lookup_insert_eq in Hfree2. discriminate. }
  split; [exact Hne|]. rewrite Hw2, Hw1. split.
  - rewrite lookup_insert_ne by congruence. rewrite lookup_insert_eq. eauto.
  - rewrite lookup_insert_eq. eauto.
Qed.

Lemma successive_admissions_distinct_witness :
  let cfg := config.serverSettings ["red"; "green"; "blue"] "dead" in
  let ws := {| ws_closed := None; ws_sent := [] |} in
  let w := {| clients := ∅; stdout := []; tasks := [] |} in
  let w1 := snd (clientHandler_connect cfg ws "/pyTanksAPI/player" [4] w) in
  let w2 := snd (clientHandler_connect cfg ws "/pyTanksAPI/player" [7; 5] w1) in
  clientHandler_connect cfg ws "/pyTanksAPI/player" [4] w
  = (Return (Receiving 1), w1) /\
  clientHandler_connect cfg ws "/pyTanksAPI/player" [7; 5] w1
  = (Return (Receiving 2), w2) /\
  1 <> 2 /\ is_Some (clients w2 !! 1) /\ is_Some (clients w2 !! 2).
Proof.
  intros cfg ws w w1 w2. split; [reflexivity|]. split; [reflexivity|].
  apply (successive_admissions_distinct cfg ws "/pyTanksAPI/player" [4]
           ws "/pyTanksAPI/player" [7; 5] w w1 w2 1 2); reflexivity.
Defined.

(** *** Player identities index the table of names *)

Lemma clientHandler_register_clients cfg ws path clientType draws w :
  clients (exec (clientHandler_register cfg ws path clientType draws) w)
  = clients w
  \/ exists clientID,
       clients w !! clientID = None
       /\ clients (exec (clientHandler_register cfg ws path clientType draws) w)
          = <[clientID := client_init ws clientType]> (clients w)
       /\ if String.eqb clientType (config.type_player (config.clientTypes cfg))
          then 0 <= clientID < Z.of_nat (length (config.tankNames cfg))
          else 1000 <= clientID <= 9999.
Proof.
  destruct (generate_clientID_spec cfg clientType draws w) as (out & Hgen & Hout).
  destruct out as [[i|]|e].
  - right. exists i.
    destruct (clientHandler_register_drawn cfg ws path clientType draws w i Hgen)
      as (w' & Hreg & Hw' & _).
    destruct (Hout i eq_refl) as (Hfree & Hrange).
    unfold exec. rewrite Hreg. now repeat split.
  - left. unfold exec, clientHandler_register.
    now rewrite (bind_Return _ _ _ _ _ Hgen).
  - left. unfold exec, clientHandler_register.
    now rewrite (bind_Raise _ _ _ _ _ Hgen).
Qed.

Lemma clientHandler_recv_clients cfg i received w :
  clients (exec (clientHandler_recv cfg i received) w) = clients w
  \/ clients (exec (clientHandler_recv cfg i received) w) = delete i (clients w)
  \/ exists c c',
       clients w !! i = Some c
       /\ type c' = type c
       /\ clients (exec (clientHandler_recv cfg i received) w)
          = <[i := c']> (clients w).
Proof.
  unfold clientHandler_recv. munfold.
  destruct received as [message|e].
  - destruct (clients w !! i) as [c|] eqn:Ei; [|now left].
    right. right. exists c. eexists. split; [reflexivity|].
    split; [|destruct (config.logLevel cfg >=? 2); simpl;
               rewrite lookup_insert_eq; reflexivity].
    reflexivity.
  - destruct e; try now left.
    destruct (clients w !! i) as [c|] eqn:Ei; [|now left].
    right. left. simpl. now destruct (config.logLevel cfg >=? 1).
Qed.

Lemma perform_keeps_player_range cfg a w :
  (forall clientID c,
      clients w !! clientID = Some c ->
      type c = config.type_player (config.clientTypes cfg) ->
      0 <= clientID < Z.of_nat (length (config.tankNames cfg))) ->
  forall clientID c,
    clients (perform cfg a w) !! clientID = Some c ->
    type c = config.type_player (config.clientTypes cfg) ->
    0 <= clientID < Z.of_nat (length (config.tankNames cfg)).
Proof.
  intros Inv k c' Hc' Hty.
  destruct a as [[i|ty] message|i|i received|ws path draws]; simpl in Hc'.
  - rewrite send_one_entry in Hc'.
    destruct (clients w !! k) as [c|] eqn:Hc;
      [|case_decide; discriminate].
    apply (Inv k c Hc).
    case_decide; simpl in Hc'; injection Hc' as <-; exact Hty.
  - rewrite send_type_entry in Hc'.
    destruct (clients w !! k) as [c|] eqn:Hc; [|discriminate].
    apply (Inv k c Hc). simpl in Hc'. injection Hc' as <-.
    now destruct (String.eqb (type c) ty).
  - destruct (sendTask_step_clients cfg i w) as [E | (c & c1 & Hc & Ht & E)];
      rewrite E in Hc'; [now apply (Inv k c')|].
    destruct (decide (i = k)) as [->|Hne].
    + rewrite lookup_insert_eq in Hc'. injection Hc' as <-.
      apply (Inv k c Hc). congruence.
    + rewrite lookup_insert_ne in Hc' by exact Hne. now apply (Inv k c').
  - destruct (clientHandler_recv_clients cfg i received w)
      as [E | [E | (c & c1 & Hc & Ht & E)]]; rewrite E in Hc'.
    + now apply (Inv k c').
    + destruct (decide (i = k)) as [->|Hne].
      * rewrite lookup_delete_eq in Hc'. discriminate.
      * rewrite lookup_delete_ne in Hc' by exact Hne. now apply (Inv k c').
    + destruct (decide (i = k)) as [->|Hne].
      * rewrite lookup_insert_eq in Hc'. injection Hc' as <-.
        apply (Inv k c Hc). congruence.
      * rewrite lookup_insert_ne in Hc' by exact Hne. now apply (Inv k c').
  - assert (Hreg : forall clientType,
        clients (exec (clientHandler_register cfg ws path clientType draws) w)
          !! k = Some c' ->
        0 <= k < Z.of_nat (length (config.tankNames cfg))).
    { intros clientType Hk.
      destruct (clientHandler_register_clients cfg ws path clientType draws w)
        as [E | (i & Hfree & E & Hrange)]; rewrite E in Hk;
        [now apply (Inv k c')|].
      destruct (decide (i = k)) as [->|Hne].
      - rewrite lookup_insert_eq in Hk. injection Hk as <-.
        simpl in Hty. rewrite Hty, String.eqb_refl in Hrange. exact Hrange.
      - rewrite lookup_insert_ne in Hk by exact Hne. now apply (Inv k c'). }
    unfold clientHandler_connect in Hc'.
    destruct (String.eqb path _); [exact (Hreg _ Hc')|].
    destruct (String.eqb path _); [exact (Hreg _ Hc')|].
    apply (Inv k c'); [|exact Hty].
    revert Hc'. unfold websocket_send. munfold.
    now destruct (config.logLevel cfg >=? 1), (ws_closed ws).
Qed.

(** Whatever the schedule run from the empty registry, a registered
    session of the player type has an identity in [0, len(tankNames)): a
    player's identity is always a valid index into the table of names. *)
Theorem player_identity_indexes_names cfg acts clientID c :
  clients (run cfg acts {| clients := ∅; stdout := []; tasks := [] |})
    !! clientID = Some c ->
  type c = config.type_player (config.clientTypes cfg) ->
  0 <= clientID < Z.of_nat (length (config.tankNames cfg)).
Proof.
  assert (Hrun : forall acts w,
    (forall k c0, clients w !! k = Some c0 ->
       type c0 = config.type_player (config.clientTypes cfg) ->
       0 <= k < Z.of_nat (length (config.tankNames cfg))) ->
    forall k c0, clients (run cfg acts w) !! k = Some c0 ->
       type c0 = config.type_player (config.clientTypes cfg) ->
       0 <= k < Z.of_nat (length (config.tankNames cfg))).
  { clear. induction acts as [|a acts IH]; intros w Inv; [exact Inv|].
    simpl. apply IH. now apply perform_keeps_player_range. }
  apply Hrun. intros k c0 Hk. simpl in Hk. rewrite lookup_empty in Hk.
  discriminate.
Qed.

Lemma player_identity_indexes_names_witness :
  let cfg := config.serverSettings ["red"; "green"; "blue"] "dead" in
  let ws := {| ws_closed := None; ws_sent := [] |} in
  let acts := [AConnect ws "/pyTanksAPI/viewer" [234];
               AConnect ws "/pyTanksAPI/player" [8];
               ASend (inr "player") "state"; ADrain 2] in
  let c := {| socket := {| ws_closed := None; ws_sent := ["state"] |};
              type := "player"; outgoing := []; incoming := [] |} in
  clients (run cfg acts {| clients := ∅; stdout := []; tasks := [] |}) !! 2
  = Some c /\
  type c = config.type_player (config.clientTypes cfg) /\
  0 <= 2 < Z.of_nat (length (config.tankNames cfg)).
Proof.
  intros cfg ws acts c. split; [reflexivity|]. split; [reflexivity|].
  apply (player_identity_indexes_names cfg acts 2 c); reflexivity.
Defined.
